(** * AgroBank preview front end: CMS payload normalisation and the
      draft-mode endpoints

    A shallow embedding of the helper functions of
    [src/app/blog/[slug]/page.tsx] and [src/app/about/page.tsx]
    ([withBaseUrl], [extractMediaItems], [getMediaUrl],
    [getEntityAttributes], [getRelation]) and of the two route handlers
    [GET] of [/api/preview/enable] and [/api/preview/disable], with the
    properties the specification states about them. *)

From Stdlib Require Import Ascii String List ZArith Bool Arith Lia.
From Stdlib Require Import DecimalString DecimalNat.
Import ListNotations.
Open Scope string_scope.

(* ================================================================== *)
(** * JavaScript values, as the helpers see them *)
(* ================================================================== *)

Module JS.

(** The helpers take [unknown]: whatever the CMS response, parsed from
    JSON, holds at a field, or [undefined] when the field is missing.
    An object is the list of its own properties in insertion order; a
    property read takes the first binding of a key.  A number is kept
    by its integer value: the code only ever tests a number for being
    falsy, that is zero. *)
#[local] Unset Elimination Schemes.
Inductive val : Type :=
| VUndefined
| VNull
| VBool (b : bool)
| VNum (n : Z)
| VStr (s : string)
| VArr (items : list val)
| VObj (fields : list (string * val)).
#[local] Set Elimination Schemes.

(** [!v] is [negb (truthy v)]. *)
Definition truthy (v : val) : bool :=
  match v with
  | VUndefined | VNull => false
  | VBool b => b
  | VNum n => negb (Z.eqb n 0)
  | VStr s => negb (String.eqb s "")
  | VArr _ | VObj _ => true
  end.

(** [v === undefined || v === null], the test of [?.]. *)
Definition nullish (v : val) : bool :=
  match v with
  | VUndefined | VNull => true
  | _ => false
  end.

(** [Array.isArray(v)]. *)
Definition isArray (v : val) : bool :=
  match v with
  | VArr _ => true
  | _ => false
  end.

(** [typeof v === 'object']: objects, arrays and [null]. *)
Definition typeof_object (v : val) : bool :=
  match v with
  | VNull | VArr _ | VObj _ => true
  | _ => false
  end.

Fixpoint lookup (k : string) (fields : list (string * val)) : option val :=
  match fields with
  | [] => None
  | (k', v) :: rest => if String.eqb k' k then Some v else lookup k rest
  end.

(** [v.k] for a [v] that is neither [null] nor [undefined].  It is used
    at the keys [attributes], [data], [url], [formats], [large] and
    [medium] only, none of which a prototype or a string or array
    provides, so only an object's own property can answer. *)
Definition prop (v : val) (k : string) : val :=
  match v with
  | VObj fields =>
      match lookup k fields with
      | Some w => w
      | None => VUndefined
      end
  | _ => VUndefined
  end.

(** [v?.k]. *)
Definition optprop (v : val) (k : string) : val :=
  if nullish v then VUndefined else prop v k.

(** [k in v] for a [v] with [typeof v === 'object'] that is not [null],
    at the same keys as [prop]. *)
Definition has_in (k : string) (v : val) : bool :=
  match v with
  | VObj fields =>
      match lookup k fields with
      | Some _ => true
      | None => false
      end
  | _ => false
  end.

(** [a || b]. *)
Definition or_else (a b : val) : val :=
  if truthy a then a else b.

(** Nesting depth of a value: a primitive has depth 0. *)
Fixpoint depth (v : val) : nat :=
  match v with
  | VArr items => S (list_max (map depth items))
  | VObj fields => S (list_max (map (fun kv => depth (snd kv)) fields))
  | _ => 0
  end.

(** What a call evaluates to: a value, or an exception thrown. *)
Inductive completion (A : Type) : Type :=
| Normal (a : A)
| Throw (error : string).
Arguments Normal {A} a.
Arguments Throw {A} error.

End JS.
Import JS.

(** All the results of a list of runs, if every run gave one. *)
Fixpoint all_some {A : Type} (rs : list (option A)) : option (list A) :=
  match rs with
  | [] => Some []
  | None :: _ => None
  | Some r :: rest =>
      match all_some rest with
      | Some rs' => Some (r :: rs')
      | None => None
      end
  end.

(* ================================================================== *)
(** * The media and relation normaliser *)
(* ================================================================== *)

Module Media.

(** [extractMediaItems] exists twice, in the article page and in the
    about page.  The two copies are the same text but for the branch
    [typeof value === 'string'], which only the article page has. *)
Inductive page : Type :=
| BlogPage
| AboutPage.

(** One unit of [fuel] is one call of [extractMediaItems] on the stack:
    [None] says the calls nest deeper than [fuel] allows. *)
Fixpoint extractMediaItems_fuel (p : page) (fuel : nat) (value : val)
  : option (list val) :=
  match fuel with
  | O => None
  | S fuel' =>
      if negb (truthy value) then Some []
      else
        match value with
        | VArr items =>                       (* Array.isArray(value) *)
            match all_some (map (extractMediaItems_fuel p fuel') items) with
            | Some results => Some (filter truthy (concat results))
            | None => None
            end
        | VStr _ =>                           (* typeof value === 'string' *)
            match p with
            | BlogPage => Some [VObj [("url", value)]]
            | AboutPage => Some []
            end
        | VObj _ =>                           (* typeof value === 'object' *)
            let record := value in
            if truthy (prop record "attributes") then
              Some [prop record "attributes"]
            else if truthy (prop record "data") then
              extractMediaItems_fuel p fuel' (prop record "data")
            else if has_in "url" record || has_in "formats" record then
              Some [record]
            else Some []
        | _ => Some []
        end
  end.

(** The function itself: the run with one call more than the value is
    deep, which [extractMediaItems_fuel_enough] shows to be enough. *)
Definition extractMediaItems (p : page) (value : val) : list val :=
  match extractMediaItems_fuel p (S (depth value)) value with
  | Some items => items
  | None => []
  end.

Section WithOrigin.

(** [process.env.STRAPI_API_URL], when it is set. *)
Variable env_STRAPI_API_URL : option string.

Definition STRAPI_API_URL : string :=
  match env_STRAPI_API_URL with
  | Some origin => if String.eqb origin "" then "http://localhost:1337" else origin
  | None => "http://localhost:1337"
  end.

(** [url.startsWith] exists on strings only: any other truthy value
    makes the call throw. *)
Definition withBaseUrl (url : val) : completion val :=
  if negb (truthy url) then Normal VNull
  else
    match url with
    | VStr s =>
        if String.prefix "http://" s || String.prefix "https://" s
        then Normal url
        else Normal (VStr (STRAPI_API_URL ++ s))
    | _ => Throw "TypeError: url.startsWith is not a function"
    end.

Definition getMediaUrl (asset : val) : completion val :=
  if negb (truthy asset) then Normal VNull
  else
    let url :=
      or_else (optprop (optprop (prop asset "formats") "large") "url")
        (or_else (optprop (optprop (prop asset "formats") "medium") "url")
           (prop asset "url")) in
    withBaseUrl (or_else url VNull).

End WithOrigin.

Definition getEntityAttributes (entity : val) : val :=
  if negb (truthy entity) || negb (typeof_object entity) then VNull
  else
    let record := entity in
    if has_in "attributes" record
       && truthy (prop record "attributes")
       && typeof_object (prop record "attributes")
    then prop record "attributes"
    else record.

Definition getRelation (value : val) : val :=
  if negb (truthy value) || negb (typeof_object value) then VNull
  else
    let record := value in
    if has_in "data" record then
      let data := prop record "data" in
      if negb (truthy data) || isArray data then VNull
      else getEntityAttributes data
    else getEntityAttributes record.

End Media.

(* ================================================================== *)
(** * The preview session controller and the pages' content status *)
(* ================================================================== *)

Module Preview.

(** [draftMode()]: the flag of the session, kept in a cookie.  A handler
    is run on the state the request arrives with and leaves the state
    its response carries.  A handler that throws has no response of its
    own: the framework answers with an error, the cookie that
    [draftMode()] queued is not sent, and the session keeps the state
    it had. *)
Inductive DraftState : Type :=
| DISABLED
| ENABLED.

Definition isEnabled (draft : DraftState) : bool :=
  match draft with
  | ENABLED => true
  | DISABLED => false
  end.

(** [URLSearchParams]: the pairs of a query string in their order; a
    name may occur more than once. *)
Definition URLSearchParams : Type := list (string * string).

(** [searchParams.get(name)]: the first value of [name], or [null]. *)
Fixpoint get (name : string) (params : URLSearchParams) : option string :=
  match params with
  | [] => None
  | (k, v) :: rest => if String.eqb k name then Some v else get name rest
  end.

Definition delete (name : string) (params : URLSearchParams) : URLSearchParams :=
  filter (fun kv => negb (String.eqb (fst kv) name)) params.

(** [searchParams.set(name, value)]: the first pair of [name] takes the
    value and the others go; without one the pair is added last. *)
Fixpoint set (name value : string) (params : URLSearchParams) : URLSearchParams :=
  match params with
  | [] => [(name, value)]
  | (k, v) :: rest =>
      if String.eqb k name then (name, value) :: delete name rest
      else (k, v) :: set name value rest
  end.

(** A URL that [new URL(input, base)] returned, kept as its
    construction: the two arguments of the constructor and the
    parameters written through [searchParams.set] afterwards.  How the
    platform resolves [input] against [base] is not interpreted. *)
Record URL : Type := {
  input : string;
  base : string;
  written : URLSearchParams
}.

(** [new URL(input, base)] returns a URL or throws [TypeError: Invalid
    URL]; which of the two is for the platform's parser to say.  Its
    verdict, [URL.canParse(input, base)], is taken as given. *)
Definition URL_parser : Type := string -> string -> bool.

(** [None] stands for the [TypeError] thrown. *)
Definition new_URL (canParse : URL_parser) (input base : string) : option URL :=
  if canParse input base
  then Some {| input := input; base := base; written := [] |}
  else None.

Definition searchParams_set (name value : string) (u : URL) : URL :=
  {| input := input u; base := base u; written := set name value (written u) |}.

(** The request: [request.url] and the [searchParams] of
    [new URL(request.url)]. *)
Record NextRequest : Type := {
  url : string;
  searchParams : URLSearchParams
}.

(** What the client gets: a response the handler returned, or the
    framework's answer to an exception the handler did not catch. *)
Inductive NextResponse : Type :=
| json (message : string) (status : nat)
| redirect (target : URL)
| uncaught (error : string).

(** Truthiness of a [string | null | undefined]. *)
Definition given (s : option string) : bool :=
  match s with
  | Some s => negb (String.eqb s "")
  | None => false
  end.

(** [a === b] for [a] a [string | null] and [b] a [string | undefined]:
    two strings that are equal; [null] and [undefined] are identical to
    no string and not to each other. *)
Definition same (a b : option string) : bool :=
  match a, b with
  | Some a, Some b => String.eqb a b
  | _, _ => false
  end.

(** [url.startsWith(prefix)] on a [url] that is a string. *)
Definition startsWith (s prefix : string) : bool := String.prefix prefix s.

(** A route handler runs on the platform (here its URL parser), reads
    the process environment (here [process.env.PREVIEW_SECRET]) and the
    request, and may switch the draft flag. *)
Definition handler : Type :=
  URL_parser -> option string -> NextRequest -> DraftState
  -> DraftState * NextResponse.

Module Enable.

Definition GET : handler := fun canParse env_PREVIEW_SECRET request draft =>
  let url := get "url" (searchParams request) in
  let secret := get "secret" (searchParams request) in
  let expectedSecret := env_PREVIEW_SECRET in
  if given expectedSecret && negb (same secret expectedSecret) then
    (draft, json "Invalid preview secret" 401)
  else
    match url with
    | None => (draft, json "Missing or invalid url" 400)
    | Some u =>
        if negb (given url) || negb (startsWith u "/") then
          (draft, json "Missing or invalid url" 400)
        else
          let status := get "status" (searchParams request) in
          let locale := get "locale" (searchParams request) in
          let enabled := ENABLED in             (* draftMode().enable() *)
          match new_URL canParse u (Preview.url request) with
          | None => (draft, uncaught "TypeError: Invalid URL")
          | Some redirectUrl =>
              let redirectUrl :=
                match status with
                | Some s =>
                    if given status then searchParams_set "status" s redirectUrl
                    else redirectUrl
                | None => redirectUrl
                end in
              let redirectUrl :=
                match locale with
                | Some l =>
                    if given locale then searchParams_set "locale" l redirectUrl
                    else redirectUrl
                | None => redirectUrl
                end in
              (enabled, redirect redirectUrl)
          end
    end.

End Enable.

Module Disable.

Definition GET : handler := fun canParse _ request draft =>
  let url :=
    match get "url" (searchParams request) with
    | Some u => if given (Some u) then u else "/"
    | None => "/"
    end in
  let disabled := DISABLED in                   (* draftMode().disable() *)
  match new_URL canParse url (Preview.url request) with
  | None => (draft, uncaught "TypeError: Invalid URL")
  | Some redirectUrl => (disabled, redirect redirectUrl)
  end.

End Disable.

(** The value of a page's [searchParams] at a name: one string, or an
    array when the name is repeated. *)
Inductive param : Type :=
| One (s : string)
| Many (ss : list string).

(** The [status] a page asks the CMS for, as the three pages compute
    it from [searchParams?.status] and [draftMode().isEnabled]. *)
Definition page_status (searchParams_status : option param) (draft : DraftState)
  : string :=
  let isDraft := isEnabled draft in
  match searchParams_status with
  | Some (One s) => s
  | _ => if isDraft then "draft" else "published"
  end.

End Preview.

(* ================================================================== *)
(** * The CMS client ([lib/strapi.ts]) *)
(* ================================================================== *)

Module Strapi.

(** A value of a [QueryParams] record, [string | number | undefined];
    the code tests for [null] as well.  A number is kept by its integer
    value, and what [String] prints for it is left to the platform. *)
Inductive qvalue : Type :=
| QUndefined
| QNull
| QString (s : string)
| QNumber (n : Z).

(** The entries of a [QueryParams] record, as [Object.entries] lists
    them. *)
Definition QueryParams : Type := list (string * qvalue).

(** A URL that [new URL(path, base)] returned, kept as its
    construction, with what [url.search = query] assigned to it, if
    anything. *)
Record URL : Type := {
  input : string;
  base : string;
  search : option string
}.

(** The second argument of [fetch]. *)
Record RequestInit : Type := {
  headers : list (string * string);
  cache : string
}.

(** What the client reads of a response; reading the body may fail. *)
Record Response : Type := {
  ok : bool;
  status : nat;
  text : completion string;
  json : completion val
}.

(** [value === undefined || value === null || value === ''], the test
    under which [buildQuery] passes an entry over. *)
Definition dropped (value : qvalue) : bool :=
  match value with
  | QUndefined | QNull => true
  | QString s => String.eqb s ""
  | QNumber _ => false
  end.

(** [`${n}`] for a non-negative integer such as an HTTP status or an
    array index: its decimal digits. *)
Definition decimal (n : nat) : string :=
  DecimalString.NilEmpty.string_of_uint (Nat.to_uint n).

Section Client.

(** [process.env.STRAPI_API_URL] and [process.env.STRAPI_API_TOKEN]. *)
Variable env_STRAPI_API_URL : option string.
Variable env_STRAPI_API_TOKEN : option string.

(** [String(n)] on a number, and the percent-encoding that
    [URLSearchParams.toString] applies to names and values. *)
Variable String_number : Z -> string.
Variable urlencoded : string -> string.

(** The platform's URL parser: whether [new URL(input, base)] returns. *)
Variable URL_canParse : Preview.URL_parser.

(** The network: [fetch(url.toString(), init)], which may reject. *)
Variable fetch : URL -> RequestInit -> completion Response.

Definition STRAPI_API_URL : string := Media.STRAPI_API_URL env_STRAPI_API_URL.

Definition STRAPI_API_TOKEN : option string := env_STRAPI_API_TOKEN.

(** [String(value)]. *)
Definition String_ (value : qvalue) : string :=
  match value with
  | QUndefined => "undefined"
  | QNull => "null"
  | QString s => s
  | QNumber n => String_number n
  end.

(** [searchParams.append(name, value)]. *)
Definition append (name value : string) (searchParams : Preview.URLSearchParams)
  : Preview.URLSearchParams :=
  (searchParams ++ [(name, value)])%list.

(** [searchParams.toString()]. *)
Definition toString (searchParams : Preview.URLSearchParams) : string :=
  String.concat "&"
    (map (fun pair => urlencoded (fst pair) ++ "=" ++ urlencoded (snd pair))
       searchParams).

Definition buildQuery (params : QueryParams) : string :=
  let searchParams :=
    fold_left
      (fun searchParams entry =>
         let key := fst entry in
         let value := snd entry in
         if dropped value then searchParams
         else append key (String_ value) searchParams)
      params [] in
  toString searchParams.

(** [options.params] is [None] when the caller gives no [params]. *)
Definition fetchStrapi (path : string) (options_params : option QueryParams)
  : completion val :=
  if negb (URL_canParse path STRAPI_API_URL) then Throw "TypeError: Invalid URL"
  else
  let url := {| input := path; base := STRAPI_API_URL; search := None |} in
  let query :=
    match options_params with
    | Some params => buildQuery params
    | None => ""
    end in
  let url :=
    if negb (String.eqb query "")
    then {| input := input url; base := base url; search := Some query |}
    else url in
  let init :=
    {| headers :=
         match STRAPI_API_TOKEN with
         | Some token =>
             if Preview.given STRAPI_API_TOKEN
             then [("Authorization", "Bearer " ++ token)]
             else []
         | None => []
         end;
       cache := "no-store" |} in
  match fetch url init with
  | Throw error => Throw error
  | Normal res =>
      if negb (ok res) then
        match text res with
        | Throw error => Throw error
        | Normal body =>
            Throw ("Error: Strapi request failed (" ++ decimal (status res)
                   ++ "): " ++ body)
        end
      else json res
  end.

End Client.

End Strapi.

(* ================================================================== *)
(** * The markdown renderer's overrides ([RichText.tsx]) *)
(* ================================================================== *)

Module RichText.

(** The attributes the link override computes; whatever else the
    markdown node carries is spread after them. *)
Record anchor : Type := {
  href : option string;
  target : option string;
  rel : option string
}.

(** The attributes the image override computes. *)
Record image : Type := {
  src : string;
  alt : string
}.

Section Component.

(** The [baseUrl] prop, when the page passes one. *)
Variable baseUrl : option string.

Definition withBaseUrl (url : option string) : option string :=
  match url with
  | None => None
  | Some u =>
      if negb (Preview.given url) then None
      else if String.prefix "http://" u || String.prefix "https://" u then Some u
      else
        match baseUrl with
        | Some b => if Preview.given baseUrl then Some (b ++ u) else Some u
        | None => Some u
        end
  end.

(** The override [a]. *)
Definition a (href : option string) : anchor :=
  let isExternal :=
    match href with
    | Some h =>
        if Preview.given href
        then negb (Preview.startsWith h "/") && negb (Preview.startsWith h "#")
        else false
    | None => false
    end in
  {| href := href;
     target := if isExternal then Some "_blank" else None;
     rel := if isExternal then Some "noreferrer" else None |}.

(** The override [img]. *)
Definition img (src alt : option string) : image :=
  let url :=
    match src with
    | Some s => if Preview.startsWith s "/" then withBaseUrl src else src
    | None => src
    end in
  {| src := match url with
            | Some u => u
            | None => ""
            end;
     alt := match alt with
            | Some t => if Preview.given alt then t else "Image"
            | None => "Image"
            end |}.

End Component.

End RichText.

(* ================================================================== *)
(** * What the pages compute from a CMS response *)
(* ================================================================== *)

Module Pages.

(** [a ?? b]. *)
Definition coalesce (a b : val) : val :=
  if nullish a then b else a.

(** [items[0]] on an array: [undefined] when it is empty. *)
Definition first (items : list val) : val :=
  match items with
  | item :: _ => item
  | [] => VUndefined
  end.

(** [typeof searchParams?.locale === 'string' ? searchParams.locale :
    undefined], as a query parameter of the CMS request. *)
Definition page_locale (searchParams_locale : option Preview.param)
  : Strapi.qvalue :=
  match searchParams_locale with
  | Some (Preview.One s) => Strapi.QString s
  | _ => Strapi.QUndefined
  end.

(** The [params] that the article page and the category page pass to
    [fetchStrapi], and those of the about page. *)
Definition by_slug_params (slug status : string) (locale : Strapi.qvalue)
  : Strapi.QueryParams :=
  [("filters[slug][$eq]", Strapi.QString slug);
   ("populate", Strapi.QString "*");
   ("status", Strapi.QString status);
   ("locale", locale)].

Definition about_params (status : string) (locale : Strapi.qvalue)
  : Strapi.QueryParams :=
  [("populate", Strapi.QString "*");
   ("status", Strapi.QString status);
   ("locale", locale)].

Module BlogArticlePage.

(** The constants the article page derives from a found [article]
    (the keys read here are not provided by any prototype either). *)
Definition articleData (article : val) : val :=
  or_else (Media.getEntityAttributes article) (VObj []).

Definition coverAsset (articleData : val) : val :=
  first (Media.extractMediaItems Media.BlogPage
           (coalesce (prop articleData "cover") VNull)).

Definition coverUrl (env_STRAPI_API_URL : option string) (articleData : val)
  : completion val :=
  Media.getMediaUrl env_STRAPI_API_URL (coverAsset articleData).

End BlogArticlePage.

Module CategoryPage.

(** [category.attributes.name || 'Untitled category'] on a found
    [category]: reading [name] off a missing [attributes] throws. *)
Definition title (category : val) : completion val :=
  match prop category "attributes" with
  | VUndefined =>
      Throw "TypeError: Cannot read properties of undefined (reading 'name')"
  | VNull =>
      Throw "TypeError: Cannot read properties of null (reading 'name')"
  | attributes => Normal (or_else (prop attributes "name") (VStr "Untitled category"))
  end.

End CategoryPage.

End Pages.

(* ================================================================== *)
(** * The about page's block renderer *)
(* ================================================================== *)

Module AboutPage.

(** The elements a component returns.  [Expr v] is a child written
    [{v}], [Nodes] an array child, [Null] the child [null]. *)
#[local] Unset Elimination Schemes.
Inductive node : Type :=
| Element (tag : string) (key : option string) (props : list (string * val))
    (children : list node)
| Component (name : string) (props : list (string * val))
| Text (s : string)
| Expr (v : val)
| Nodes (items : list node)
| Null.
#[local] Set Elimination Schemes.

(** [items.map((item, index) => f(item, index))] from index [from] on;
    the first call that throws ends the map. *)
Fixpoint map_indexed {A B : Type} (f : A -> nat -> completion B)
    (items : list A) (from : nat) : completion (list B) :=
  match items with
  | [] => Normal []
  | item :: rest =>
      match f item from with
      | Throw error => Throw error
      | Normal y =>
          match map_indexed f rest (S from) with
          | Throw error => Throw error
          | Normal ys => Normal (y :: ys)
          end
      end
  end.

(** [block.__component === name]. *)
Definition component_is (block : val) (name : string) : bool :=
  match prop block "__component" with
  | VStr c => String.eqb c name
  | _ => false
  end.

Section Render.

(** [process.env.STRAPI_API_URL], and the class names of the CSS
    module [page.module.css]. *)
Variable env_STRAPI_API_URL : option string.
Variable styles : string -> string.

Definition className (names : list string) : string * val :=
  ("className", VStr (String.concat " " (map styles names))).

Definition animationDelay (delay : nat) : string * val :=
  ("style", VObj [("animationDelay", VStr (Strapi.decimal delay ++ "ms"))]).

Definition renderRichText (body : val) : node :=
  if negb (truthy body) then
    Element "p" None [className ["muted"]] [Text "No content yet."]
  else
    Component "RichText"
      [("content", body);
       ("baseUrl", VStr (Media.STRAPI_API_URL env_STRAPI_API_URL))].

(** One image of a gallery: [null] when the asset has no URL. *)
Definition sliderImage (index : nat) (asset : val) (assetIndex : nat)
  : completion node :=
  match Media.getMediaUrl env_STRAPI_API_URL asset with
  | Throw error => Throw error
  | Normal url =>
      if negb (truthy url) then Normal Null
      else
        Normal
          (Element "img"
             (Some ("slider-" ++ Strapi.decimal index ++ "-"
                    ++ Strapi.decimal assetIndex))
             [("src", url);
              ("alt", or_else (prop asset "alternativeText")
                        (or_else (prop asset "name") (VStr "Gallery image")));
              className ["sliderImage"]]
             [])
  end.

Definition renderBlock (block : val) (index : nat) : completion node :=
  let delay := 140 + index * 80 in
  if nullish block then
    match block with
    | VNull =>
        Throw "TypeError: Cannot read properties of null (reading '__component')"
    | _ =>
        Throw "TypeError: Cannot read properties of undefined (reading '__component')"
    end
  else
      if component_is block "shared.rich-text" then
        let rich := block in
        Normal
          (Element "article" (Some ("rich-" ++ Strapi.decimal index))
             [className ["card"; "reveal"]; animationDelay delay]
             [Element "div" None [className ["cardTag"]] [Text "Story"];
              Element "div" None [className ["richText"]]
                [renderRichText (prop rich "body")]])
      else if component_is block "shared.quote" then
        let quote := block in
        Normal
          (Element "article" (Some ("quote-" ++ Strapi.decimal index))
             [className ["card"; "quote"; "reveal"]; animationDelay delay]
             [Element "blockquote" None []
                [Element "p" None []
                   [Expr (or_else (prop quote "body")
                            (VStr "“Growing together with every season.”"))];
                 if truthy (prop quote "title")
                 then Element "cite" None [] [Text "— "; Expr (prop quote "title")]
                 else Null]])
      else if component_is block "shared.media" then
        let media := block in
        let assets :=
          Media.extractMediaItems Media.AboutPage
            (Pages.coalesce (prop media "file") VNull) in
        let asset := Pages.first assets in
        match Media.getMediaUrl env_STRAPI_API_URL asset with
        | Throw error => Throw error
        | Normal url =>
            Normal
              (Element "article" (Some ("media-" ++ Strapi.decimal index))
                 [className ["card"; "media"; "reveal"]; animationDelay delay]
                 [Element "div" None [className ["cardTag"]] [Text "Field snapshot"];
                  if truthy url then
                    Element "img" None
                      [("src", url);
                       ("alt", or_else (optprop asset "alternativeText")
                                 (or_else (optprop asset "name") (VStr "Media")));
                       className ["mediaImage"]]
                      []
                  else
                    Element "div" None [className ["mediaPlaceholder"]]
                      [Text "Media coming soon"];
                  if truthy (optprop asset "caption")
                  then Element "p" None [className ["caption"]]
                         [Expr (prop asset "caption")]
                  else Null])
        end
      else if component_is block "shared.slider" then
        let slider := block in
        let assets :=
          Media.extractMediaItems Media.AboutPage
            (Pages.coalesce (prop slider "files") VNull) in
        match
          match assets with
          | [] =>
              Normal (Element "div" None [className ["mediaPlaceholder"]]
                        [Text "Gallery coming soon"])
          | _ :: _ =>
              match map_indexed (sliderImage index) assets 0 with
              | Throw error => Throw error
              | Normal images =>
                  Normal (Element "div" None [className ["sliderGrid"]]
                            [Nodes images])
              end
          end
        with
        | Throw error => Throw error
        | Normal gallery =>
            Normal
              (Element "article" (Some ("slider-" ++ Strapi.decimal index))
                 [className ["card"; "slider"; "reveal"]; animationDelay delay]
                 [Element "div" None [className ["cardTag"]] [Text "Field gallery"];
                  gallery])
        end
      else
        Normal
          (Element "article" (Some ("block-" ++ Strapi.decimal index))
             [className ["card"; "reveal"]; animationDelay delay]
             [Element "div" None [className ["cardTag"]] [Text "Content"];
              Element "p" None [className ["muted"]]
                [Text "Unsupported block type."]]).

(** [blocks.map(renderBlock)] on the [blocks] of the about entry. *)
Definition renderBlocks (blocks : list val) : completion (list node) :=
  map_indexed renderBlock blocks 0.

End Render.

(** The [key] of an element. *)
Definition key_of (n : node) : option string :=
  match n with
  | Element _ key _ _ => key
  | _ => None
  end.

(** The [src] of every [img] element of a tree, in document order. *)
Fixpoint image_sources (n : node) : list val :=
  match n with
  | Element tag _ props children =>
      ((if String.eqb tag "img"
        then match lookup "src" props with
             | Some v => [v]
             | None => []
             end
        else [])
       ++ concat (map image_sources children))%list
  | Nodes items => concat (map image_sources items)
  | _ => []
  end.

End AboutPage.

(** ** Parts of a payload *)

(** [part_of w v]: [w] is [v] or sits somewhere inside it, as an item
    of a sequence or the value of a field. *)
Inductive part_of (w : val) : val -> Prop :=
| part_self : part_of w w
| part_item (items : list val) (v : val) :
    In v items -> part_of w v -> part_of w (VArr items)
| part_field (fields : list (string * val)) (k : string) (v : val) :
    In (k, v) fields -> part_of w v -> part_of w (VObj fields).



(* ================================================================== *)
(** * Sample payloads and requests *)
(* ================================================================== *)

Import Media.
Import Preview.

(** ** CMS payloads *)

(** An [attributes] wrapper around a [data] wrapper around an asset. *)
Definition attributes_around_data : val :=
  VObj [("attributes", VObj [("data", VObj [("url", VStr "/x.png")])])].

(** An asset that carries an [attributes] key holding [null]. *)
Definition asset_with_null_attributes : val :=
  VObj [("attributes", VNull); ("url", VStr "/x.png")].

(** An asset with both size variants and a root URL. *)
Definition asset_large_medium_root : val :=
  VObj [("formats", VObj [("large", VObj [("url", VStr "/a.png")]);
                          ("medium", VObj [("url", VStr "/b.png")])]);
        ("url", VStr "/c.png")].

(** An asset whose only variant is served from a CDN. *)
Definition asset_cdn_medium : val :=
  VObj [("formats", VObj [("medium", VObj [("url", VStr "https://cdn.example/x.png")])]);
        ("url", VStr "/c.png")].

(** A relation that arrives as a bare slug. *)
Definition relation_as_slug : val := VStr "jane-doe".

(** A relation whose record holds a text under [attributes]. *)
Definition relation_with_text_attributes : val :=
  VObj [("data", VObj [("id", VNum 7); ("attributes", VStr "featured")])].

(** A many-relation handed to the single-relation accessor. *)
Definition many_relation : val :=
  VObj [("data", VArr [VObj [("name", VStr "Jane")]; VObj [("name", VStr "Joe")]])].

(** ** Requests to the preview endpoints *)

(** The verdict of the platform's parser on the inputs of the
    instances below: an input that leaves the host empty ([//], [/\],
    [http://], [https://]) is rejected, and so is every input against
    a base that is not absolute; the other inputs used below are paths
    and absolute URLs with a host, which it accepts. *)
Definition parser_of_instances : URL_parser := fun input base =>
  (String.prefix "http://" base || String.prefix "https://" base)
  && negb (existsb (String.eqb input) ["//"; "/\"; "http://"; "https://"]).

(** A request to the enable endpoint whose target begins with [/] and
    is rejected by the parser, and one to the disable endpoint whose
    target is rejected. *)
Definition request_enable_double_slash : NextRequest :=
  {| url := "http://localhost:3000/api/preview/enable?url=%2F%2F";
     searchParams := [("url", "//")] |}.

Definition request_enable_double_slash_status : NextRequest :=
  {| url := "http://localhost:3000/api/preview/enable?url=%2F%2F&status=draft";
     searchParams := [("url", "//"); ("status", "draft")] |}.

Definition request_disable_no_host : NextRequest :=
  {| url := "http://localhost:3000/api/preview/disable?url=http%3A%2F%2F";
     searchParams := [("url", "http://")] |}.

(** A request that fails both tests of the enable handler: the secret
    is wrong and the target is on another origin. *)
Definition request_wrong_secret_foreign_url : NextRequest :=
  {| url := "http://localhost:3000/api/preview/enable?url=http%3A%2F%2Fevil.example%2Fx&secret=guess";
     searchParams := [("url", "http://evil.example/x"); ("secret", "guess")] |}.

(** A request with no [secret] at all. *)
Definition request_no_secret : NextRequest :=
  {| url := "http://localhost:3000/api/preview/enable?url=%2Fabout";
     searchParams := [("url", "/about")] |}.

(** A request that carries [status] with an empty value. *)
Definition request_empty_status : NextRequest :=
  {| url := "http://localhost:3000/api/preview/enable?url=%2Fblog%2Ffoo&status=&locale=en";
     searchParams := [("url", "/blog/foo"); ("status", ""); ("locale", "en")] |}.

(** The request of the specification's example. *)
Definition request_blog_foo : NextRequest :=
  {| url := "http://localhost:3000/api/preview/enable?url=%2Fblog%2Ffoo&secret=s3cret&status=draft&locale=en";
     searchParams := [("url", "/blog/foo"); ("secret", "s3cret");
                      ("status", "draft"); ("locale", "en")] |}.

(** A request to the disable endpoint that carries [url] with an empty
    value. *)
Definition request_disable_empty_url : NextRequest :=
  {| url := "http://localhost:3000/api/preview/disable?url=";
     searchParams := [("url", "")] |}.

(** A request to the disable endpoint whose target is on another
    origin. *)
Definition request_disable_foreign_url : NextRequest :=
  {| url := "http://localhost:3000/api/preview/disable?url=http%3A%2F%2Fevil.example%2Fx";
     searchParams := [("url", "http://evil.example/x")] |}.

(** ** Blocks of the about entry *)

(** A media block whose file is wrapped the way the CMS wraps it. *)
Definition media_block : val :=
  VObj [("__component", VStr "shared.media");
        ("file",
         VObj [("data",
                VObj [("attributes",
                       VObj [("url", VStr "/uploads/field.png");
                             ("alternativeText", VStr "A field")])])])].

(** A media block whose asset holds a number where the URL belongs. *)
Definition media_block_numeric_url : val :=
  VObj [("__component", VStr "shared.media"); ("file", VObj [("url", VNum 5)])].

(** A quote, and a block of a type the page does not know. *)
Definition quote_block : val :=
  VObj [("__component", VStr "shared.quote"); ("body", VStr "Sow and reap.")].

Definition chart_block : val :=
  VObj [("__component", VStr "shared.chart"); ("points", VArr [VNum 1; VNum 2])].

(* ================================================================== *)
(** * Properties of the normaliser *)
(* ================================================================== *)

(** ** Depth of the parts of a value *)

Lemma depth_item (items : list val) (x : val) :
  In x items -> depth x <= list_max (map depth items).
Proof.
  induction items as [|y items IH]; simpl; [contradiction|].
  intros [->|Hin]; [lia|]. specialize (IH Hin). lia.
Qed.

Lemma depth_lookup (k : string) (fields : list (string * val)) (w : val) :
  lookup k fields = Some w ->
  depth w <= list_max (map (fun kv => depth (snd kv)) fields).
Proof.
  induction fields as [|[k' v] fields IH]; simpl; [discriminate|].
  destruct (String.eqb k' k).
  - intros [= ->]. lia.
  - intros H. specialize (IH H). lia.
Qed.

Lemma depth_prop (fields : list (string * val)) (k : string) :
  truthy (prop (VObj fields) k) = true ->
  depth (prop (VObj fields) k) < depth (VObj fields).
Proof.
  simpl. destruct (lookup k fields) as [w|] eqn:E; [|discriminate].
  intros _. apply depth_lookup in E. lia.
Qed.

(** ** Runs of [extractMediaItems_fuel] *)

Lemma all_some_map_ext {A B : Type} (f g : A -> option B) (l : list A) :
  (forall x, In x l -> f x = g x) ->
  all_some (map f l) = all_some (map g l).
Proof.
  induction l as [|a l IH]; simpl; intros H; [reflexivity|].
  rewrite (H a) by now left.
  rewrite IH by (intros x Hx; apply H; now right).
  reflexivity.
Qed.

Lemma all_some_map_Some {A B : Type} (g : A -> B) (l : list A) :
  all_some (map (fun x => Some (g x)) l) = Some (map g l).
Proof.
  induction l as [|a l IH]; simpl; [reflexivity|]. now rewrite IH.
Qed.

(** Two runs with enough fuel agree. *)
Lemma extractMediaItems_fuel_stable (p : page) (n m : nat) (v : val) :
  depth v < n -> depth v < m ->
  extractMediaItems_fuel p n v = extractMediaItems_fuel p m v.
Proof.
  revert m v. induction n as [|n IH]; intros m v Hn Hm; [lia|].
  destruct m as [|m]; [lia|].
  destruct v as [| |b|z|s|items|fields]; try reflexivity.
  - cbn [extractMediaItems_fuel truthy negb].
    rewrite (all_some_map_ext (extractMediaItems_fuel p n)
               (extractMediaItems_fuel p m)); [reflexivity|].
    intros x Hx. apply depth_item in Hx. simpl in Hn, Hm.
    apply IH; lia.
  - cbn [extractMediaItems_fuel truthy negb].
    destruct (truthy (prop (VObj fields) "attributes")); [reflexivity|].
    destruct (truthy (prop (VObj fields) "data")) eqn:E; [|reflexivity].
    apply depth_prop in E. apply IH; lia.
Qed.

(** With enough fuel a run gives a result. *)
Lemma extractMediaItems_fuel_enough (p : page) (n : nat) (v : val) :
  depth v < n -> exists items, extractMediaItems_fuel p n v = Some items.
Proof.
  revert v. induction n as [|n IH]; intros v Hn; [lia|].
  destruct v as [| |b|z|s|items|fields];
    try (cbn [extractMediaItems_fuel]; destruct (negb _); eauto; fail).
  - cbn [extractMediaItems_fuel].
    destruct (negb _); [eauto|]. destruct p; eauto.
  - cbn [extractMediaItems_fuel truthy negb].
    assert (H : exists rs, all_some (map (extractMediaItems_fuel p n) items) = Some rs).
    { simpl in Hn.
      assert (Hall : forall x, In x items -> depth x < n).
      { intros x Hx. apply depth_item in Hx. lia. }
      clear Hn. induction items as [|x items IHl]; simpl; [eauto|].
      destruct (IH x) as [r ->]; [apply Hall; now left|].
      destruct IHl as [rs ->]; [intros y Hy; apply Hall; now right|].
      eauto. }
    destruct H as [rs ->]. eauto.
  - cbn [extractMediaItems_fuel truthy negb].
    destruct (truthy (prop (VObj fields) "attributes")); [eauto|].
    destruct (truthy (prop (VObj fields) "data")) eqn:E.
    + apply depth_prop in E. apply IH. lia.
    + destruct (_ || _); eauto.
Qed.

Lemma extractMediaItems_fuel_total (p : page) (n : nat) (v : val) :
  depth v < n ->
  extractMediaItems_fuel p n v = Some (extractMediaItems p v).
Proof.
  intros Hn. unfold extractMediaItems.
  rewrite <- (extractMediaItems_fuel_stable p n (S (depth v)) v Hn) by lia.
  destruct (extractMediaItems_fuel_enough p n v Hn) as [items ->].
  reflexivity.
Qed.

(** ** The equations of [extractMediaItems], one per branch of the code *)

Lemma extractMediaItems_falsy (p : page) (v : val) :
  truthy v = false -> extractMediaItems p v = [].
Proof.
  intros H. unfold extractMediaItems. cbn [extractMediaItems_fuel].
  now rewrite H.
Qed.

Lemma extractMediaItems_array (p : page) (items : list val) :
  extractMediaItems p (VArr items)
  = filter truthy (concat (map (extractMediaItems p) items)).
Proof.
  unfold extractMediaItems at 1.
  cbn [extractMediaItems_fuel truthy negb].
  rewrite (all_some_map_ext _ (fun x => Some (extractMediaItems p x))).
  - now rewrite all_some_map_Some.
  - intros x Hx. apply extractMediaItems_fuel_total.
    apply depth_item in Hx. simpl. lia.
Qed.

Lemma extractMediaItems_object (p : page) (fields : list (string * val)) :
  let record := VObj fields in
  extractMediaItems p record
  = if truthy (prop record "attributes") then [prop record "attributes"]
    else if truthy (prop record "data") then extractMediaItems p (prop record "data")
    else if has_in "url" record || has_in "formats" record then [record]
    else [].
Proof.
  cbv zeta. unfold extractMediaItems at 1.
  cbn [extractMediaItems_fuel truthy negb].
  destruct (truthy (prop (VObj fields) "attributes")); [reflexivity|].
  destruct (truthy (prop (VObj fields) "data")) eqn:E.
  - apply depth_prop in E. now rewrite extractMediaItems_fuel_total by lia.
  - destruct (_ || _); reflexivity.
Qed.

(** Every item of a result is truthy, so [.filter(Boolean)] on a
    sequence's results removes nothing. *)
Lemma extractMediaItems_items_truthy (p : page) (v : val) :
  Forall (fun item => truthy item = true) (extractMediaItems p v).
Proof.
  remember (S (depth v)) as n eqn:Hn.
  assert (Hlt : depth v < n) by lia. clear Hn.
  revert v Hlt. induction n as [|n IH]; intros v Hlt; [lia|].
  destruct v as [| |b|z|s|items|fields].
  - constructor.
  - constructor.
  - unfold extractMediaItems. cbn. destruct b; constructor.
  - unfold extractMediaItems. cbn. destruct (Z.eqb z 0); constructor.
  - unfold extractMediaItems. cbn [extractMediaItems_fuel].
    destruct (negb _); [constructor|]. destruct p; repeat constructor.
  - rewrite extractMediaItems_array. apply Forall_forall.
    intros x Hx. now apply filter_In in Hx.
  - rewrite extractMediaItems_object.
    destruct (truthy (prop (VObj fields) "attributes")) eqn:Ea.
    + now repeat constructor.
    + destruct (truthy (prop (VObj fields) "data")) eqn:Ed.
      * apply IH. apply depth_prop in Ed. lia.
      * destruct (_ || _); repeat constructor.
Qed.

Lemma filter_all {A : Type} (f : A -> bool) (l : list A) :
  Forall (fun x => f x = true) l -> filter f l = l.
Proof.
  induction 1 as [|x l Hx _ IH]; simpl; [reflexivity|]. now rewrite Hx, IH.
Qed.

Lemma extractMediaItems_array_concat (p : page) (items : list val) :
  extractMediaItems p (VArr items) = concat (map (extractMediaItems p) items).
Proof.
  rewrite extractMediaItems_array. apply filter_all.
  apply Forall_concat, Forall_map, Forall_forall.
  intros x _. apply extractMediaItems_items_truthy.
Qed.

(** In the about page's copy a string falls through every branch. *)
Lemma extractMediaItems_about_string (s : string) :
  extractMediaItems AboutPage (VStr s) = [].
Proof.
  unfold extractMediaItems. cbn [extractMediaItems_fuel].
  destruct (negb _); reflexivity.
Qed.

(** ** Unwrap precedence on objects *)

(** C1, as stated, fails.  An object that carries an [attributes] key
    does not give what recursing into that key's value gives: the value
    under [attributes] is returned as the one asset without being
    unwrapped further, and an [attributes] key holding [null] is passed
    over, so the object itself is the asset. *)
Lemma extractMediaItems_attributes_not_recursed :
  (has_in "attributes" attributes_around_data = true
   /\ extractMediaItems BlogPage attributes_around_data
      = [VObj [("data", VObj [("url", VStr "/x.png")])]]
   /\ extractMediaItems BlogPage (prop attributes_around_data "attributes")
      = [VObj [("url", VStr "/x.png")]]
   /\ extractMediaItems BlogPage attributes_around_data
      <> extractMediaItems BlogPage (prop attributes_around_data "attributes")
   /\ extractMediaItems AboutPage attributes_around_data
      <> extractMediaItems AboutPage (prop attributes_around_data "attributes"))
  /\ (has_in "attributes" asset_with_null_attributes = true
      /\ extractMediaItems BlogPage asset_with_null_attributes
         = [asset_with_null_attributes]
      /\ extractMediaItems BlogPage (prop asset_with_null_attributes "attributes")
         = []).
Proof.
  repeat split; try reflexivity; vm_compute; discriminate.
Qed.

(** C1, amended.  For every object, in both copies: if the value at
    [attributes] is truthy the result is that value as a singleton,
    taken as it is; else if the value at [data] is truthy the result is
    that of recursing into it; else if the object carries a [url] or a
    [formats] key the result is the object as a singleton; any other
    object yields the empty sequence. *)
Theorem extractMediaItems_object_precedence (p : page) (fields : list (string * val)) :
  let record := VObj fields in
  (truthy (prop record "attributes") = true ->
     extractMediaItems p record = [prop record "attributes"])
  /\ (truthy (prop record "attributes") = false ->
      truthy (prop record "data") = true ->
      extractMediaItems p record = extractMediaItems p (prop record "data"))
  /\ (truthy (prop record "attributes") = false ->
      truthy (prop record "data") = false ->
      has_in "url" record = true \/ has_in "formats" record = true ->
      extractMediaItems p record = [record])
  /\ (truthy (prop record "attributes") = false ->
      truthy (prop record "data") = false ->
      has_in "url" record = false -> has_in "formats" record = false ->
      extractMediaItems p record = []).
Proof.
  intros record. pose proof (extractMediaItems_object p fields) as E.
  cbv zeta in E. fold record in E. rewrite E. clear E.
  repeat split.
  - now intros ->.
  - now intros -> ->.
  - intros -> -> [-> | ->]; [reflexivity|]. now rewrite orb_true_r.
  - now intros -> -> -> ->.
Qed.

Lemma extractMediaItems_object_precedence_witness :
  truthy (prop attributes_around_data "attributes") = true
  /\ extractMediaItems AboutPage attributes_around_data
     = [prop attributes_around_data "attributes"].
Proof.
  split; [reflexivity|].
  apply (extractMediaItems_object_precedence AboutPage
           [("attributes", VObj [("data", VObj [("url", VStr "/x.png")])])]).
  reflexivity.
Defined.

(** ** The three wrapper depths *)

(** C2.  [{data: {attributes: {url: "/x.png"}}}],
    [{attributes: {url: "/x.png"}}] and [{url: "/x.png"}] all give
    [[{url: "/x.png"}]], in both copies. *)
Theorem extractMediaItems_wrapper_depths (p : page) :
  let asset := VObj [("url", VStr "/x.png")] in
  extractMediaItems p (VObj [("data", VObj [("attributes", asset)])]) = [asset]
  /\ extractMediaItems p (VObj [("attributes", asset)]) = [asset]
  /\ extractMediaItems p asset = [asset].
Proof.
  destruct p; repeat split; reflexivity.
Qed.

(** ** Strings, missing values and sequences *)

(** C8, as stated, fails: the empty string is a string, and it is
    falsy, so the first test of the function answers the empty sequence
    before the string branch is reached. *)
Lemma extractMediaItems_empty_string :
  extractMediaItems BlogPage (VStr "") = []
  /\ extractMediaItems BlogPage (VStr "") <> [VObj [("url", VStr "")]].
Proof.
  split; [reflexivity|]. vm_compute. discriminate.
Qed.

(** C8, amended.  In the article page's copy every non-empty string [s]
    gives the singleton of the asset [{url: s}]; in both copies the
    empty string, [null] and a missing value give the empty sequence,
    and a sequence gives the concatenation of the results of its
    items, one level flattened, with falsy entries filtered. *)
Theorem extractMediaItems_string_null_sequence :
  (forall s, s <> "" ->
     extractMediaItems BlogPage (VStr s) = [VObj [("url", VStr s)]])
  /\ (forall p, extractMediaItems p (VStr "") = []
                /\ extractMediaItems p VNull = []
                /\ extractMediaItems p VUndefined = [])
  /\ (forall p items,
        extractMediaItems p (VArr items)
        = filter truthy (concat (map (extractMediaItems p) items))).
Proof.
  split; [|split].
  - intros s Hs. unfold extractMediaItems. cbn [extractMediaItems_fuel truthy].
    apply String.eqb_neq in Hs. now rewrite Hs.
  - intros p. repeat split; now apply extractMediaItems_falsy.
  - intros p items. apply extractMediaItems_array.
Qed.

Lemma extractMediaItems_string_null_sequence_witness :
  "/uploads/cover.png" <> ""
  /\ extractMediaItems BlogPage (VStr "/uploads/cover.png")
     = [VObj [("url", VStr "/uploads/cover.png")]].
Proof.
  split; [discriminate|].
  apply (proj1 extractMediaItems_string_null_sequence). discriminate.
Defined.

(** ** Termination *)

(** C9.  On every value the calls of [extractMediaItems] nest no deeper
    than the value does: a run that is allowed one call more than the
    depth of the value, or any number beyond that, returns, whatever
    [data] and [attributes] wrappers the value is made of. *)
Theorem extractMediaItems_terminates (p : page) (v : val) (extra : nat) :
  extractMediaItems_fuel p (S (depth v) + extra) v = Some (extractMediaItems p v).
Proof.
  apply extractMediaItems_fuel_total. lia.
Qed.

(** ** The display URL of an asset *)

Lemma withBaseUrl_string (env : option string) (s : string) :
  s <> "" ->
  withBaseUrl env (VStr s)
  = Normal (VStr (if String.prefix "http://" s || String.prefix "https://" s
                  then s else STRAPI_API_URL env ++ s)).
Proof.
  intros Hs. unfold withBaseUrl. cbn [truthy].
  apply String.eqb_neq in Hs. rewrite Hs. cbn [negb].
  destruct (_ || _); reflexivity.
Qed.

Lemma or_else_falsy (a b : val) : truthy a = false -> or_else a b = b.
Proof. unfold or_else. now intros ->. Qed.

Lemma or_else_truthy (a b : val) : truthy a = true -> or_else a b = a.
Proof. unfold or_else. now intros ->. Qed.

(** C3.  [getMediaUrl] gives [null] on [null] and on a missing asset.
    On any other asset the URL selected is [formats.large.url], else
    [formats.medium.url], else the root [url], each passed over when it
    is missing or empty; the selected URL is returned unchanged when it
    begins with [http://] or [https://], and prefixed with the CMS
    origin otherwise; with nothing to select the result is [null]. *)
Theorem getMediaUrl_selects_and_resolves (env : option string) (asset : val) :
  let large := optprop (optprop (prop asset "formats") "large") "url" in
  let medium := optprop (optprop (prop asset "formats") "medium") "url" in
  let root := prop asset "url" in
  let absolute s := String.prefix "http://" s || String.prefix "https://" s in
  (asset = VNull \/ asset = VUndefined -> getMediaUrl env asset = Normal VNull)
  /\ (truthy asset = true ->
      forall s, s <> "" ->
      large = VStr s
      \/ (truthy large = false /\ medium = VStr s)
      \/ (truthy large = false /\ truthy medium = false /\ root = VStr s) ->
      (absolute s = true -> getMediaUrl env asset = Normal (VStr s))
      /\ (absolute s = false ->
          getMediaUrl env asset = Normal (VStr (STRAPI_API_URL env ++ s))))
  /\ (truthy asset = true ->
      truthy large = false -> truthy medium = false -> truthy root = false ->
      getMediaUrl env asset = Normal VNull).
Proof.
  intros large medium root absolute. split; [|split].
  - intros [-> | ->]; reflexivity.
  - intros Hasset s Hs Hsel.
    assert (Hurl : or_else (or_else large (or_else medium root)) VNull = VStr s).
    { assert (Ht : truthy (VStr s) = true).
      { cbn. apply String.eqb_neq in Hs. now rewrite Hs. }
      destruct Hsel as [E | [[Hl E] | [Hl [Hm E]]]].
      - rewrite (or_else_truthy large) by now rewrite E.
        rewrite or_else_truthy; now rewrite E.
      - rewrite (or_else_falsy large) by exact Hl.
        rewrite (or_else_truthy medium) by now rewrite E.
        rewrite or_else_truthy; now rewrite E.
      - rewrite (or_else_falsy large) by exact Hl.
        rewrite (or_else_falsy medium) by exact Hm.
        rewrite or_else_truthy; now rewrite E. }
    unfold getMediaUrl. rewrite Hasset. cbn [negb].
    fold large medium root. rewrite Hurl, withBaseUrl_string by exact Hs.
    fold (absolute s). split; now intros ->.
  - intros Hasset Hl Hm Hr.
    unfold getMediaUrl. rewrite Hasset. cbn [negb].
    fold large medium root.
    rewrite (or_else_falsy large), (or_else_falsy medium), (or_else_falsy root)
      by assumption.
    reflexivity.
Qed.

Lemma getMediaUrl_selects_and_resolves_witness :
  truthy asset_large_medium_root = true
  /\ "/a.png" <> ""
  /\ optprop (optprop (prop asset_large_medium_root "formats") "large") "url"
     = VStr "/a.png"
  /\ String.prefix "http://" "/a.png" || String.prefix "https://" "/a.png" = false
  /\ getMediaUrl (Some "https://cms.agrobank.example") asset_large_medium_root
     = Normal (VStr "https://cms.agrobank.example/a.png").
Proof.
  split; [reflexivity|]. split; [discriminate|].
  split; [reflexivity|]. split; [reflexivity|].
  refine (proj2 (proj1 (proj2 (getMediaUrl_selects_and_resolves
            (Some "https://cms.agrobank.example") asset_large_medium_root))
            eq_refl "/a.png" _ (or_introl eq_refl)) eq_refl).
  discriminate.
Defined.

(** An absolute URL in a format slot is not prefixed, and without a
    configured origin the default one is used. *)
Example getMediaUrl_absolute :
  getMediaUrl (Some "https://cms.agrobank.example") asset_cdn_medium
  = Normal (VStr "https://cdn.example/x.png").
Proof. reflexivity. Qed.

Example getMediaUrl_default_origin :
  getMediaUrl None asset_large_medium_root
  = Normal (VStr "http://localhost:1337/a.png").
Proof. reflexivity. Qed.

(** A URL that is not a string makes [withBaseUrl] throw. *)
Example getMediaUrl_throws :
  getMediaUrl None (VObj [("url", VNum 5)])
  = Throw "TypeError: url.startsWith is not a function".
Proof. reflexivity. Qed.

(** ** Single relations *)

(** C4, as stated, fails on two counts.  A value with no [data] key and
    nothing to unwrap is not always returned as it is: a value that is
    not an object gives [null].  And a single record under [data] is
    not unwrapped through every [attributes] it has: one that is not
    itself an object is left where it is and the record is returned. *)
Lemma getRelation_guards :
  (has_in "data" relation_as_slug = false
   /\ getRelation relation_as_slug = VNull
   /\ getRelation relation_as_slug <> relation_as_slug)
  /\ (has_in "attributes" (prop relation_with_text_attributes "data") = true
      /\ getRelation relation_with_text_attributes
         = prop relation_with_text_attributes "data"
      /\ getRelation relation_with_text_attributes
         <> prop (prop relation_with_text_attributes "data") "attributes").
Proof.
  repeat split; try reflexivity; vm_compute; discriminate.
Qed.

Lemma getEntityAttributes_object (r : val) :
  truthy r = true -> typeof_object r = true ->
  getEntityAttributes r
  = if truthy (prop r "attributes") && typeof_object (prop r "attributes")
    then prop r "attributes" else r.
Proof.
  intros Ht Ho. unfold getEntityAttributes. rewrite Ht, Ho. cbn [negb orb].
  destruct r as [| |b|z|s|items|fields]; try discriminate; [reflexivity|].
  unfold has_in, prop. destruct (lookup "attributes" fields); reflexivity.
Qed.

(** C4, amended.  A value that is falsy or not an object gives [null].
    For an object carrying a [data] key: data that is a sequence or is
    falsy ([null], missing) gives [null], never an element of the
    sequence, and so does data that is not an object; data that is a
    single record gives the record's [attributes] when that is itself
    an object, else the record.  An object with no [data] key is
    treated as such a record is: its [attributes] when that is an
    object, else the value as it is. *)
Theorem getRelation_cases (value : val) :
  let unwrapped (r result : val) :=
    (truthy (prop r "attributes") && typeof_object (prop r "attributes") = true ->
       result = prop r "attributes")
    /\ (truthy (prop r "attributes") && typeof_object (prop r "attributes") = false ->
        result = r) in
  let data := prop value "data" in
  (truthy value = false \/ typeof_object value = false -> getRelation value = VNull)
  /\ (truthy value = true -> typeof_object value = true ->
      has_in "data" value = true ->
      (truthy data = false \/ isArray data = true -> getRelation value = VNull)
      /\ (truthy data = true -> typeof_object data = false ->
          getRelation value = VNull)
      /\ (truthy data = true -> typeof_object data = true -> isArray data = false ->
          unwrapped data (getRelation value)))
  /\ (truthy value = true -> typeof_object value = true ->
      has_in "data" value = false ->
      unwrapped value (getRelation value)).
Proof.
  intros unwrapped data. split; [|split].
  - unfold getRelation. intros [-> | ->]; [reflexivity|]. now rewrite orb_true_r.
  - intros Ht Ho Hd. unfold getRelation. rewrite Ht, Ho, Hd. cbn [negb orb].
    fold data. split; [|split].
    + intros [-> | ->]; [reflexivity|]. now rewrite orb_true_r.
    + intros Hdt Hdo.
      assert (isArray data = false) as -> by now destruct data.
      rewrite Hdt. cbn [negb orb]. unfold getEntityAttributes.
      rewrite Hdo. now rewrite orb_true_r.
    + intros Hdt Hdo Hda. rewrite Hdt, Hda. cbn [negb orb].
      rewrite getEntityAttributes_object by assumption.
      unfold unwrapped. split; now intros ->.
  - intros Ht Ho Hd. unfold getRelation. rewrite Ht, Ho, Hd. cbn [negb orb].
    rewrite getEntityAttributes_object by assumption.
    unfold unwrapped. split; now intros ->.
Qed.

Lemma getRelation_cases_witness :
  truthy many_relation = true
  /\ typeof_object many_relation = true
  /\ has_in "data" many_relation = true
  /\ isArray (prop many_relation "data") = true
  /\ getRelation many_relation = VNull.
Proof.
  split; [reflexivity|]. split; [reflexivity|].
  split; [reflexivity|]. split; [reflexivity|].
  exact (proj1 (proj1 (proj2 (getRelation_cases many_relation))
                  eq_refl eq_refl eq_refl) (or_intror eq_refl)).
Defined.

(** The three wrapper depths of a relation collapse to one record. *)
Example getRelation_wrapper_depths :
  let author := VObj [("name", VStr "Jane")] in
  getRelation (VObj [("data", VObj [("id", VNum 1); ("attributes", author)])]) = author
  /\ getRelation (VObj [("id", VNum 1); ("attributes", author)]) = author
  /\ getRelation author = author
  /\ getRelation (VObj [("data", VNull)]) = VNull
  /\ getRelation VUndefined = VNull.
Proof. repeat split; reflexivity. Qed.

(* ================================================================== *)
(** * Properties of the preview session controller *)
(* ================================================================== *)

Lemma given_true (s : option string) :
  given s = true <-> exists v, s = Some v /\ v <> "".
Proof.
  destruct s as [v|]; simpl.
  - rewrite negb_true_iff, String.eqb_neq. split.
    + intros H. now exists v.
    + now intros [w [[= ->] H]].
  - split; [discriminate|]. now intros [v [H _]].
Qed.

Lemma same_true (a b : option string) :
  same a b = true <-> exists s, a = Some s /\ b = Some s.
Proof.
  destruct a as [a|], b as [b|]; simpl.
  - rewrite String.eqb_eq. split.
    + intros ->. now exists b.
    + intros [s [[= ->] [= ->]]]. reflexivity.
  - split; [discriminate|]. now intros [s [_ H]].
  - split; [discriminate|]. now intros [s [H _]].
  - split; [discriminate|]. now intros [s [H _]].
Qed.

(** The first test of the enable handler, and what passes it. *)
Lemma enable_unauthorized (canParse : URL_parser) (env : option string)
    (request : NextRequest) (draft : DraftState) :
  given env && negb (same (get "secret" (searchParams request)) env) = true ->
  Enable.GET canParse env request draft
  = (draft, json "Invalid preview secret" 401).
Proof. unfold Enable.GET. now intros ->. Qed.

Lemma enable_authorized (canParse : URL_parser) (env : option string)
    (request : NextRequest) (draft : DraftState) :
  given env && negb (same (get "secret" (searchParams request)) env) = false ->
  Enable.GET canParse env request draft
  = match get "url" (searchParams request) with
    | Some u =>
        if negb (String.eqb u "") && startsWith u "/" then
          if canParse u (url request) then
            (ENABLED,
             redirect
               (let target :=
                  {| input := u; base := url request; written := [] |} in
                let target :=
                  match get "status" (searchParams request) with
                  | Some s => if String.eqb s "" then target
                              else searchParams_set "status" s target
                  | None => target
                  end in
                match get "locale" (searchParams request) with
                | Some l => if String.eqb l "" then target
                            else searchParams_set "locale" l target
                | None => target
                end))
          else (draft, uncaught "TypeError: Invalid URL")
        else (draft, json "Missing or invalid url" 400)
    | None => (draft, json "Missing or invalid url" 400)
    end.
Proof.
  unfold Enable.GET, new_URL. intros ->.
  destruct (get "url" (searchParams request)) as [u|]; [|reflexivity].
  cbn [given]. destruct (String.eqb u ""); cbn [negb orb andb]; [reflexivity|].
  destruct (startsWith u "/"); cbn [negb]; [|reflexivity].
  destruct (canParse u (url request)); [|reflexivity].
  destruct (get "status" (searchParams request)) as [s|];
    destruct (get "locale" (searchParams request)) as [l|];
    cbn [given]; try destruct (String.eqb s ""); try destruct (String.eqb l "");
    reflexivity.
Qed.

Lemma secret_mismatch_iff (env : option string) (request : NextRequest) :
  given env && negb (same (get "secret" (searchParams request)) env) = true
  <-> exists expected, env = Some expected /\ expected <> ""
                       /\ get "secret" (searchParams request) <> Some expected.
Proof.
  rewrite andb_true_iff, negb_true_iff, given_true. split.
  - intros [[v [-> Hv]] Hs]. exists v. repeat split; [assumption|].
    intros E. assert (same (get "secret" (searchParams request)) (Some v) = true)
      by (apply same_true; now exists v).
    congruence.
  - intros [v [-> [Hv Hs]]]. split; [now exists v|].
    apply not_true_is_false. rewrite same_true.
    intros [s [H [= ->]]]. contradiction.
Qed.

Lemma secret_accepted (env : option string) (request : NextRequest) :
  env = None \/ env = Some "" \/ get "secret" (searchParams request) = env ->
  given env && negb (same (get "secret" (searchParams request)) env) = false.
Proof.
  intros Hok. apply not_true_is_false. rewrite secret_mismatch_iff.
  intros [expected [He [Hne Hs]]]. destruct Hok as [H | [H | H]]; congruence.
Qed.

Lemma startsWith_slash_nonempty (u : string) : startsWith u "/" = true -> u <> "".
Proof. intros H ->. discriminate. Qed.

(** ** Enable fails closed *)

(** C5.  When a secret is configured and the supplied one is not it,
    the answer is 401 and the draft flag is left as it was, whatever
    the [url]; when the secret test passes and [url] is missing or does
    not begin with [/], the answer is 400 and the flag is left as it
    was. *)
Theorem enable_fails_closed (canParse : URL_parser) (env : option string)
    (request : NextRequest) (draft : DraftState) :
  let secret := get "secret" (searchParams request) in
  let url := get "url" (searchParams request) in
  (forall expected, env = Some expected -> expected <> "" ->
     secret <> Some expected ->
     Enable.GET canParse env request draft
     = (draft, json "Invalid preview secret" 401))
  /\ (env = None \/ env = Some "" \/ secret = env ->
      url = None \/ (exists u, url = Some u /\ startsWith u "/" = false) ->
      Enable.GET canParse env request draft
      = (draft, json "Missing or invalid url" 400)).
Proof.
  intros secret url. split.
  - intros expected He Hne Hs. apply enable_unauthorized.
    apply secret_mismatch_iff. now exists expected.
  - intros Hok Hurl. rewrite enable_authorized by now apply secret_accepted.
    fold url. destruct Hurl as [-> | [u [-> Hu]]]; [reflexivity|].
    rewrite Hu. now rewrite andb_false_r.
Qed.

Lemma enable_fails_closed_witness :
  Some "s3cret" = Some "s3cret"
  /\ "s3cret" <> ""
  /\ get "secret" (searchParams request_wrong_secret_foreign_url) <> Some "s3cret"
  /\ Enable.GET parser_of_instances (Some "s3cret")
       request_wrong_secret_foreign_url DISABLED
     = (DISABLED, json "Invalid preview secret" 401).
Proof.
  split; [reflexivity|]. split; [discriminate|]. split; [discriminate|].
  apply (proj1 (enable_fails_closed parser_of_instances (Some "s3cret")
                  request_wrong_secret_foreign_url DISABLED) "s3cret").
  - reflexivity.
  - discriminate.
  - discriminate.
Defined.

(** With the right secret the same target is refused with 400. *)
Example enable_foreign_url :
  Enable.GET parser_of_instances (Some "guess")
    request_wrong_secret_foreign_url DISABLED
  = (DISABLED, json "Missing or invalid url" 400).
Proof. reflexivity. Qed.

(** ** Enable without a configured secret *)

(** C10, as stated, fails: with no secret configured, a request whose
    [url] is [//] begins with [/] and passes both tests, but the URL
    constructor rejects the target; the handler throws, nothing is
    redirected and the draft flag stays off. *)
Lemma enable_rejected_target_throws :
  get "url" (searchParams request_enable_double_slash) = Some "//"
  /\ startsWith "//" "/" = true
  /\ parser_of_instances "//" (url request_enable_double_slash) = false
  /\ Enable.GET parser_of_instances None request_enable_double_slash DISABLED
     = (DISABLED, uncaught "TypeError: Invalid URL").
Proof. repeat split; reflexivity. Qed.

(** C10, amended.  With [PREVIEW_SECRET] unset or empty every request
    whose [url] begins with [/] and is accepted by the URL constructor
    switches the flag on and is redirected, whatever [secret] it
    carries or lacks; and the answer is the 401 one exactly when a
    non-empty secret is configured and the supplied one differs from
    it. *)
Theorem enable_secret_check (canParse : URL_parser) (env : option string)
    (request : NextRequest) (draft : DraftState) :
  (env = None \/ env = Some "" ->
   forall u, get "url" (searchParams request) = Some u ->
   startsWith u "/" = true ->
   canParse u (url request) = true ->
   exists target,
     Enable.GET canParse env request draft = (ENABLED, redirect target))
  /\ (snd (Enable.GET canParse env request draft)
      = json "Invalid preview secret" 401
      <-> exists expected, env = Some expected /\ expected <> ""
                           /\ get "secret" (searchParams request) <> Some expected).
Proof.
  split.
  - intros Henv u Hu Hslash Hparse. rewrite enable_authorized.
    + rewrite Hu, Hslash, Hparse.
      pose proof (startsWith_slash_nonempty u Hslash) as Hne.
      apply String.eqb_neq in Hne. rewrite Hne. cbn [negb andb]. eauto.
    + destruct Henv as [-> | ->]; reflexivity.
  - rewrite <- secret_mismatch_iff.
    destruct (given env && negb (same (get "secret" (searchParams request)) env))
      eqn:E.
    + rewrite enable_unauthorized by exact E. split; reflexivity.
    + rewrite enable_authorized by exact E. split; [|discriminate].
      destruct (get "url" (searchParams request)) as [u|]; [|discriminate].
      destruct (negb (String.eqb u "") && startsWith u "/"); [|discriminate].
      destruct (canParse u (url request)); discriminate.
Qed.

Lemma enable_secret_check_witness :
  get "url" (searchParams request_no_secret) = Some "/about"
  /\ startsWith "/about" "/" = true
  /\ parser_of_instances "/about" (url request_no_secret) = true
  /\ exists target,
       Enable.GET parser_of_instances (Some "") request_no_secret DISABLED
       = (ENABLED, redirect target).
Proof.
  split; [reflexivity|]. split; [reflexivity|]. split; [reflexivity|].
  apply (proj1 (enable_secret_check parser_of_instances (Some "")
                  request_no_secret DISABLED)
           (or_intror eq_refl) "/about"); reflexivity.
Defined.

(** ** Enable redirects and forwards *)

(** C6, as stated, fails on two counts: a [status] that is present on
    the request with an empty value is not put on the redirect; and a
    [url] that begins with [/] but is rejected by the URL constructor,
    such as [//], gives no redirect at all: the handler throws and the
    draft flag is not switched on. *)
Lemma enable_empty_status_and_rejected_target :
  (get "status" (searchParams request_empty_status) = Some ""
   /\ Enable.GET parser_of_instances None request_empty_status DISABLED
      = (ENABLED,
         redirect {| input := "/blog/foo";
                     base := url request_empty_status;
                     written := [("locale", "en")] |})
   /\ get "status" [("locale", "en")] = None)
  /\ (get "url" (searchParams request_enable_double_slash_status) = Some "//"
      /\ startsWith "//" "/" = true
      /\ Enable.GET parser_of_instances None request_enable_double_slash_status
           DISABLED
         = (DISABLED, uncaught "TypeError: Invalid URL")).
Proof. repeat split; reflexivity. Qed.

Lemma get_set_same (name value : string) (params : URLSearchParams) :
  get name (set name value params) = Some value.
Proof.
  induction params as [|[k v] params IH]; simpl.
  - now rewrite String.eqb_refl.
  - destruct (String.eqb k name) eqn:E; simpl.
    + now rewrite String.eqb_refl.
    + now rewrite E.
Qed.

Lemma get_delete_other (name other : string) (params : URLSearchParams) :
  String.eqb other name = false ->
  get other (delete name params) = get other params.
Proof.
  intros Hne. induction params as [|[k v] params IH]; simpl; [reflexivity|].
  destruct (String.eqb k name) eqn:E; simpl.
  - apply String.eqb_eq in E. subst k.
    rewrite String.eqb_sym, Hne. exact IH.
  - now rewrite IH.
Qed.

Lemma get_set_other (name other value : string) (params : URLSearchParams) :
  String.eqb other name = false ->
  get other (set name value params) = get other params.
Proof.
  intros Hne. induction params as [|[k v] params IH]; simpl.
  - now rewrite String.eqb_sym, Hne.
  - destruct (String.eqb k name) eqn:E; simpl.
    + apply String.eqb_eq in E. subst k.
      rewrite (String.eqb_sym name other), Hne.
      now apply get_delete_other.
    + now rewrite IH.
Qed.

(** C6, amended.  For every request that passes the secret test and
    whose [url] begins with [/] and is accepted by the URL constructor
    against the request's URL, the handler switches the draft flag on
    and redirects to that [url], with [status] and [locale] set on it
    exactly when the request carries them with a non-empty value, and
    with nothing else set; a page rendered on the resulting state
    without a [status] parameter asks for [draft]. *)
Theorem enable_redirects_and_forwards (canParse : URL_parser)
    (env : option string) (request : NextRequest) (draft : DraftState)
    (u : string) :
  let forwarded (v : option string) :=
    match v with
    | Some s => if String.eqb s "" then None else Some s
    | None => None
    end in
  env = None \/ env = Some "" \/ get "secret" (searchParams request) = env ->
  get "url" (searchParams request) = Some u ->
  startsWith u "/" = true ->
  canParse u (url request) = true ->
  exists target,
    Enable.GET canParse env request draft = (ENABLED, redirect target)
    /\ input target = u
    /\ base target = url request
    /\ get "status" (written target) = forwarded (get "status" (searchParams request))
    /\ get "locale" (written target) = forwarded (get "locale" (searchParams request))
    /\ (forall name, name <> "status" -> name <> "locale" ->
        get name (written target) = None)
    /\ page_status None (fst (Enable.GET canParse env request draft)) = "draft".
Proof.
  intros forwarded Hok Hu Hslash Hparse.
  rewrite (enable_authorized canParse env request draft
             (secret_accepted env request Hok)), Hu, Hslash, Hparse.
  pose proof (startsWith_slash_nonempty u Hslash) as Hne.
  apply String.eqb_neq in Hne. rewrite Hne. cbn [negb andb fst].
  eexists. split; [reflexivity|].
  assert (Hother : forall name v, name <> "status" -> name <> "locale" ->
            forall params, get name params = None ->
            get name (set "status" v params) = None
            /\ get name (set "locale" v params) = None).
  { intros name v H1 H2 params Hp.
    rewrite !get_set_other by now apply String.eqb_neq. now split. }
  destruct (get "status" (searchParams request)) as [s|];
    destruct (get "locale" (searchParams request)) as [l|];
    cbn [forwarded]; try destruct (String.eqb s ""); try destruct (String.eqb l "");
    cbn [input base written searchParams_set];
    (repeat split; try reflexivity;
     try (intros name H1 H2;
          repeat (apply Hother; try assumption); reflexivity)).
Qed.

Lemma enable_redirects_and_forwards_witness :
  get "secret" (searchParams request_blog_foo) = Some "s3cret"
  /\ get "url" (searchParams request_blog_foo) = Some "/blog/foo"
  /\ startsWith "/blog/foo" "/" = true
  /\ parser_of_instances "/blog/foo" (url request_blog_foo) = true
  /\ exists target,
       Enable.GET parser_of_instances (Some "s3cret") request_blog_foo DISABLED
       = (ENABLED, redirect target)
       /\ input target = "/blog/foo"
       /\ get "status" (written target) = Some "draft"
       /\ get "locale" (written target) = Some "en".
Proof.
  split; [reflexivity|]. split; [reflexivity|]. split; [reflexivity|].
  split; [reflexivity|].
  destruct (enable_redirects_and_forwards parser_of_instances (Some "s3cret")
              request_blog_foo DISABLED "/blog/foo"
              (or_intror (or_intror eq_refl)) eq_refl eq_refl eq_refl)
    as [target [H1 [H2 [_ [H3 [H4 _]]]]]].
  exists target. repeat split; assumption.
Defined.

Example enable_blog_foo :
  Enable.GET parser_of_instances (Some "s3cret") request_blog_foo DISABLED
  = (ENABLED,
     redirect {| input := "/blog/foo";
                 base := url request_blog_foo;
                 written := [("status", "draft"); ("locale", "en")] |}).
Proof. reflexivity. Qed.

(** An explicit [status] wins over the flag, and without the flag a
    page asks for published content. *)
Example page_status_cases :
  page_status (Some (One "published")) ENABLED = "published"
  /\ page_status None DISABLED = "published"
  /\ page_status (Some (Many ["draft"; "published"])) DISABLED = "published".
Proof. repeat split; reflexivity. Qed.

(** ** Disable *)

(** C7, as stated, fails on two counts: a [url] that the request
    supplies with an empty value is not the target of the redirect,
    [/] is; and a [url] that the URL constructor rejects, such as
    [http://], gives no redirect at all: the handler throws and a
    preview that is on stays on. *)
Lemma disable_empty_or_rejected_target :
  (get "url" (searchParams request_disable_empty_url) = Some ""
   /\ Disable.GET parser_of_instances None request_disable_empty_url ENABLED
      = (DISABLED,
         redirect {| input := "/"; base := url request_disable_empty_url;
                     written := [] |})
   /\ Disable.GET parser_of_instances None request_disable_empty_url ENABLED
      <> (DISABLED,
          redirect {| input := ""; base := url request_disable_empty_url;
                      written := [] |}))
  /\ (get "url" (searchParams request_disable_no_host) = Some "http://"
      /\ Disable.GET parser_of_instances None request_disable_no_host ENABLED
         = (ENABLED, uncaught "TypeError: Invalid URL")).
Proof. repeat split; try reflexivity. vm_compute. discriminate. Qed.

(** C7, amended.  For every request whose target, the request's [url]
    or [/] when [url] is absent or empty, is accepted by the URL
    constructor against the request's URL: whatever secret is
    configured or supplied and whatever state the session is in, the
    disable handler switches the draft flag off and redirects to that
    target, the [url] being taken as it is. *)
Theorem disable_unconditional (canParse : URL_parser) (env : option string)
    (request : NextRequest) (draft : DraftState) :
  canParse
    match get "url" (searchParams request) with
    | Some u => if String.eqb u "" then "/" else u
    | None => "/"
    end
    (url request) = true ->
  exists target,
    Disable.GET canParse env request draft = (DISABLED, redirect target)
    /\ base target = url request
    /\ written target = []
    /\ (get "url" (searchParams request) = None -> input target = "/")
    /\ (get "url" (searchParams request) = Some "" -> input target = "/")
    /\ (forall u, get "url" (searchParams request) = Some u -> u <> "" ->
        input target = u).
Proof.
  unfold Disable.GET, new_URL. cbv zeta.
  destruct (get "url" (searchParams request)) as [u|]; cbn [given].
  - destruct (String.eqb u "") eqn:Eu; cbn [negb]; intros ->;
      eexists; (split; [reflexivity|]); cbn [input base written];
      repeat split; try discriminate; try reflexivity.
    + intros u' [= <-] Hu. apply String.eqb_neq in Hu. congruence.
    + intros [= ->]. discriminate.
    + now intros u' [= ->].
  - intros ->. eexists. split; [reflexivity|].
    cbn [input base written]. repeat split; discriminate.
Qed.

Lemma disable_unconditional_witness :
  get "url" (searchParams request_disable_foreign_url) = Some "http://evil.example/x"
  /\ "http://evil.example/x" <> ""
  /\ parser_of_instances "http://evil.example/x" (url request_disable_foreign_url)
     = true
  /\ exists target,
       Disable.GET parser_of_instances (Some "s3cret")
         request_disable_foreign_url ENABLED
       = (DISABLED, redirect target)
       /\ input target = "http://evil.example/x".
Proof.
  split; [reflexivity|]. split; [discriminate|]. split; [reflexivity|].
  destruct (disable_unconditional parser_of_instances (Some "s3cret")
              request_disable_foreign_url ENABLED eq_refl)
    as [target [H1 [_ [_ [_ [_ H2]]]]]].
  exists target. split; [exact H1|].
  apply (H2 "http://evil.example/x"); [reflexivity|discriminate].
Defined.

(* ================================================================== *)
(** * Further properties of the normaliser *)
(* ================================================================== *)

(** X1.  Sequences are flattened at every depth: a sequence nested in a
    sequence gives what its items would give in its place, and the
    result of two sequences put end to end is the two results put end
    to end. *)
Theorem extractMediaItems_flattens_every_level (p : page) :
  (forall xs ys,
     extractMediaItems p (VArr (xs ++ ys))
     = extractMediaItems p (VArr xs) ++ extractMediaItems p (VArr ys))%list
  /\ (forall xs rest,
        extractMediaItems p (VArr (VArr xs :: rest))
        = extractMediaItems p (VArr (xs ++ rest))).
Proof.
  assert (Happ : forall xs ys,
             extractMediaItems p (VArr (xs ++ ys))
             = (extractMediaItems p (VArr xs) ++ extractMediaItems p (VArr ys))%list).
  { intros xs ys. rewrite !extractMediaItems_array_concat.
    now rewrite map_app, concat_app. }
  split; [exact Happ|].
  intros xs rest. rewrite Happ.
  rewrite (extractMediaItems_array_concat p (VArr xs :: rest)).
  cbn [map concat]. now rewrite <- extractMediaItems_array_concat.
Qed.

(** X2.  Every item of a result is truthy, so the [.filter(Boolean)] of
    the sequence branch removes nothing: the result of a sequence is
    the plain concatenation of the results of its items. *)
Theorem extractMediaItems_filter_removes_nothing (p : page) :
  (forall v item, In item (extractMediaItems p v) -> truthy item = true)
  /\ (forall items,
        extractMediaItems p (VArr items)
        = concat (map (extractMediaItems p) items)).
Proof.
  split.
  - intros v item Hin.
    pose proof (extractMediaItems_items_truthy p v) as H.
    rewrite Forall_forall in H. now apply H.
  - apply extractMediaItems_array_concat.
Qed.

Lemma lookup_In (k : string) (fields : list (string * val)) (w : val) :
  lookup k fields = Some w -> exists k', In (k', w) fields.
Proof.
  induction fields as [|[k' v] fields IH]; simpl; [discriminate|].
  destruct (String.eqb k' k).
  - intros [= ->]. exists k'. now left.
  - intros H. destruct (IH H) as [k'' Hin]. exists k''. now right.
Qed.

Lemma part_of_prop (fields : list (string * val)) (k : string) (w : val) :
  truthy (prop (VObj fields) k) = true ->
  part_of w (prop (VObj fields) k) -> part_of w (VObj fields).
Proof.
  simpl. destruct (lookup k fields) as [v|] eqn:E; [|discriminate].
  intros _ Hw. destruct (lookup_In k fields v E) as [k' Hin].
  now apply (part_field w fields k' v).
Qed.

(** X3.  The normaliser returns pieces of the payload and nothing else:
    every item of a result is a part of the input value, or, in the
    article page's copy, the asset [{url: s}] made for a non-empty
    string [s] that is a part of the input. *)
Theorem extractMediaItems_items_from_payload (p : page) (v item : val) :
  In item (extractMediaItems p v) ->
  part_of item v
  \/ (p = BlogPage
      /\ exists s, item = VObj [("url", VStr s)] /\ s <> ""
                   /\ part_of (VStr s) v).
Proof.
  remember (S (depth v)) as n eqn:Hn.
  assert (Hlt : depth v < n) by lia. clear Hn.
  revert v item Hlt. induction n as [|n IH]; intros v item Hlt; [lia|].
  destruct v as [| |b|z|s|items|fields].
  - intros [].
  - intros [].
  - unfold extractMediaItems. cbn. destruct b; intros [].
  - unfold extractMediaItems. cbn. destruct (Z.eqb z 0); intros [].
  - unfold extractMediaItems. cbn [extractMediaItems_fuel truthy].
    destruct (String.eqb s "") eqn:Es; cbn [negb]; [intros []|].
    destruct p; [|intros []].
    intros [<- | []]. right. split; [reflexivity|]. exists s.
    apply String.eqb_neq in Es. repeat split; [assumption|constructor].
  - rewrite extractMediaItems_array_concat. intros Hin.
    apply in_concat in Hin. destruct Hin as [l [Hl Hin]].
    apply in_map_iff in Hl. destruct Hl as [x [<- Hx]].
    assert (Hd : depth x < n).
    { apply depth_item in Hx. simpl in Hlt. lia. }
    destruct (IH x item Hd Hin) as [Hp | [Hb [s [E [Hs Hp]]]]].
    + left. now apply (part_item item items x).
    + right. split; [assumption|]. exists s. repeat split; try assumption.
      now apply (part_item (VStr s) items x).
  - rewrite extractMediaItems_object.
    destruct (truthy (prop (VObj fields) "attributes")) eqn:Ea.
    + intros [<- | []]. left. apply (part_of_prop fields "attributes"); [assumption|].
      constructor.
    + destruct (truthy (prop (VObj fields) "data")) eqn:Ed.
      * intros Hin. pose proof (depth_prop fields "data" Ed) as Hd.
        assert (Hd' : depth (prop (VObj fields) "data") < n) by lia.
        destruct (IH _ item Hd' Hin) as [Hp | [Hb [s [E [Hs Hp]]]]].
        -- left. now apply (part_of_prop fields "data").
        -- right. split; [assumption|]. exists s. repeat split; try assumption.
           now apply (part_of_prop fields "data").
      * destruct (_ || _); [|intros []].
        intros [<- | []]. left. constructor.
Qed.

Lemma extractMediaItems_items_from_payload_witness :
  In (VObj [("url", VStr "/uploads/a.png")])
     (extractMediaItems BlogPage (VArr [VNull; VStr "/uploads/a.png"]))
  /\ (part_of (VObj [("url", VStr "/uploads/a.png")])
        (VArr [VNull; VStr "/uploads/a.png"])
      \/ (BlogPage = BlogPage
          /\ exists s, VObj [("url", VStr "/uploads/a.png")] = VObj [("url", VStr s)]
                       /\ s <> ""
                       /\ part_of (VStr s) (VArr [VNull; VStr "/uploads/a.png"]))).
Proof.
  assert (H : In (VObj [("url", VStr "/uploads/a.png")])
                (extractMediaItems BlogPage (VArr [VNull; VStr "/uploads/a.png"])))
    by (vm_compute; now left).
  split; [exact H|].
  exact (extractMediaItems_items_from_payload BlogPage _ _ H).
Defined.

(** ** The two copies compared *)









(** ** Shapes of results *)

Lemma append_nonempty_r (a b : string) : b <> "" -> a ++ b <> "".
Proof.
  intros Hb. destruct a; simpl; [assumption|discriminate].
Qed.

Lemma prefix_append (p a b : string) :
  String.prefix p a = true -> String.prefix p (a ++ b) = true.
Proof.
  revert a. induction p as [|c p IH]; intros a;
    [intros _; now destruct (a ++ b)|].
  destruct a as [|d a]; simpl; [discriminate|].
  destruct (Ascii.ascii_dec c d); [apply IH|discriminate].
Qed.

Lemma withBaseUrl_result_shape (env : option string) (url : val) :
  match withBaseUrl env url with
  | Normal r => r = VNull \/ exists s, r = VStr s /\ s <> ""
  | Throw error =>
      error = "TypeError: url.startsWith is not a function"
      /\ truthy url = true /\ forall s, url <> VStr s
  end.
Proof.
  unfold withBaseUrl. destruct (truthy url) eqn:Ht; cbn [negb]; [|now left].
  destruct url as [| |b|z|s|items|fields]; try discriminate Ht;
    try (split; [reflexivity|split; [reflexivity|intros s'; discriminate]]).
  cbn in Ht. apply negb_true_iff, String.eqb_neq in Ht.
  destruct (_ || _); right.
  - now exists s.
  - eexists. split; [reflexivity|]. now apply append_nonempty_r.
Qed.

Lemma getMediaUrl_shape (env : option string) (asset : val) :
  match getMediaUrl env asset with
  | Normal r => r = VNull \/ exists s, r = VStr s /\ s <> ""
  | Throw error =>
      error = "TypeError: url.startsWith is not a function"
      /\ truthy
           (or_else (optprop (optprop (prop asset "formats") "large") "url")
              (or_else (optprop (optprop (prop asset "formats") "medium") "url")
                 (prop asset "url"))) = true
      /\ forall s,
           or_else (optprop (optprop (prop asset "formats") "large") "url")
             (or_else (optprop (optprop (prop asset "formats") "medium") "url")
                (prop asset "url")) <> VStr s
  end.
Proof.
  unfold getMediaUrl.
  destruct (truthy asset); cbn [negb]; [|now left].
  set (selected :=
         or_else (optprop (optprop (prop asset "formats") "large") "url")
           (or_else (optprop (optprop (prop asset "formats") "medium") "url")
              (prop asset "url"))).
  pose proof (withBaseUrl_result_shape env (or_else selected VNull)) as H.
  destruct (withBaseUrl env (or_else selected VNull)) as [r|e]; [exact H|].
  destruct H as [He [Ht Hs]]. unfold or_else in Ht, Hs.
  destruct (truthy selected) eqn:E; [|discriminate].
  repeat split; assumption.
Qed.

(** X5.  [getMediaUrl] never returns [undefined] or an empty string:
    when it returns, the result is [null] or a non-empty string, so the
    pages' test [url ? image : placeholder] shows an image exactly when
    a URL was found.  It throws only the [TypeError] of calling
    [startsWith], and only when the value selected as the URL is truthy
    and not a string. *)
Theorem getMediaUrl_result_shape (env : option string) (asset : val) :
  let selected :=
    or_else (optprop (optprop (prop asset "formats") "large") "url")
      (or_else (optprop (optprop (prop asset "formats") "medium") "url")
         (prop asset "url")) in
  match getMediaUrl env asset with
  | Normal r => r = VNull \/ exists s, r = VStr s /\ s <> ""
  | Throw error =>
      error = "TypeError: url.startsWith is not a function"
      /\ truthy selected = true /\ forall s, selected <> VStr s
  end.
Proof.
  intros selected. exact (getMediaUrl_shape env asset).
Qed.

(** X6.  No double prefixing: when the CMS origin itself begins with
    [http://] or [https://], as the default one does, whatever
    [withBaseUrl] returns for a string is left unchanged by
    [withBaseUrl]. *)
Theorem withBaseUrl_idempotent (env : option string) (s : string) (r : val) :
  String.prefix "http://" (STRAPI_API_URL env)
  || String.prefix "https://" (STRAPI_API_URL env) = true ->
  withBaseUrl env (VStr s) = Normal r ->
  withBaseUrl env r = Normal r.
Proof.
  intros Ho. unfold withBaseUrl at 1. cbn [truthy].
  destruct (String.eqb s "") eqn:Es; cbn [negb]; [now intros [= <-]|].
  destruct (String.prefix "http://" s || String.prefix "https://" s) eqn:Ea.
  - intros [= <-]. unfold withBaseUrl. cbn [truthy]. now rewrite Es, Ea.
  - intros [= <-]. unfold withBaseUrl. cbn [truthy].
    apply String.eqb_neq in Es.
    pose proof (append_nonempty_r (STRAPI_API_URL env) s Es) as Hne.
    apply String.eqb_neq in Hne. rewrite Hne. cbn [negb].
    assert (String.prefix "http://" (STRAPI_API_URL env ++ s)
            || String.prefix "https://" (STRAPI_API_URL env ++ s) = true) as ->.
    { apply orb_true_iff in Ho. apply orb_true_iff.
      destruct Ho as [H | H]; [left | right]; now apply prefix_append. }
    reflexivity.
Qed.

Lemma withBaseUrl_idempotent_witness :
  String.prefix "http://" (STRAPI_API_URL None)
  || String.prefix "https://" (STRAPI_API_URL None) = true
  /\ withBaseUrl None (VStr "/uploads/a.png")
     = Normal (VStr "http://localhost:1337/uploads/a.png")
  /\ withBaseUrl None (VStr "http://localhost:1337/uploads/a.png")
     = Normal (VStr "http://localhost:1337/uploads/a.png").
Proof.
  split; [reflexivity|]. split; [reflexivity|].
  apply (withBaseUrl_idempotent None "/uploads/a.png"); reflexivity.
Defined.

(** With an origin that is not absolute the prefix is applied again. *)
Example withBaseUrl_prefixes_twice :
  withBaseUrl (Some "//cms.example") (VStr "/a.png") = Normal (VStr "//cms.example/a.png")
  /\ withBaseUrl (Some "//cms.example") (VStr "//cms.example/a.png")
     = Normal (VStr "//cms.example//cms.example/a.png").
Proof. split; reflexivity. Qed.

Lemma getEntityAttributes_result_shape (entity : val) :
  getEntityAttributes entity = VNull
  \/ truthy (getEntityAttributes entity) && typeof_object (getEntityAttributes entity)
     = true.
Proof.
  unfold getEntityAttributes.
  destruct (negb (truthy entity) || negb (typeof_object entity)) eqn:E; [now left|].
  apply orb_false_iff in E. destruct E as [Ht Ho].
  apply negb_false_iff in Ht, Ho.
  destruct (has_in "attributes" entity && truthy (prop entity "attributes")
            && typeof_object (prop entity "attributes")) eqn:Ea; right.
  - apply andb_true_iff in Ea. destruct Ea as [Ea Eo].
    apply andb_true_iff in Ea. destruct Ea as [_ Et]. now rewrite Et, Eo.
  - now rewrite Ht, Ho.
Qed.

(** X7.  [getRelation] never returns a primitive or [undefined]: its
    result is [null] or a non-null value of type object, so reading
    [author.name] or [author?.avatar] off a truthy result cannot
    throw. *)
Theorem getRelation_result_shape (value : val) :
  getRelation value = VNull
  \/ truthy (getRelation value) && typeof_object (getRelation value) = true.
Proof.
  unfold getRelation.
  destruct (negb (truthy value) || negb (typeof_object value)); [now left|].
  destruct (has_in "data" value).
  - destruct (negb (truthy (prop value "data")) || isArray (prop value "data"));
      [now left|]. apply getEntityAttributes_result_shape.
  - apply getEntityAttributes_result_shape.
Qed.

(* ================================================================== *)
(** * Properties of the CMS client *)
(* ================================================================== *)

Section StrapiClient.

Variable env_STRAPI_API_URL : option string.
Variable env_STRAPI_API_TOKEN : option string.
Variable String_number : Z -> string.
Variable urlencoded : string -> string.
Variable URL_canParse : URL_parser.

#[local] Abbreviation toString := (Strapi.toString urlencoded).
#[local] Abbreviation buildQuery := (Strapi.buildQuery String_number urlencoded).
#[local] Abbreviation fetchStrapi :=
  (Strapi.fetchStrapi env_STRAPI_API_URL env_STRAPI_API_TOKEN String_number
     urlencoded URL_canParse).

Lemma fold_left_append (params : Strapi.QueryParams) (acc : URLSearchParams) :
  fold_left
    (fun searchParams entry =>
       if Strapi.dropped (snd entry) then searchParams
       else Strapi.append (fst entry) (Strapi.String_ String_number (snd entry))
              searchParams)
    params acc
  = (acc ++ map (fun entry => (fst entry, Strapi.String_ String_number (snd entry)))
             (filter (fun entry => negb (Strapi.dropped (snd entry))) params))%list.
Proof.
  revert acc. induction params as [|[k v] params IH]; intros acc; simpl.
  - now rewrite app_nil_r.
  - rewrite IH. destruct (Strapi.dropped v); simpl; [reflexivity|].
    unfold Strapi.append. now rewrite <- app_assoc.
Qed.

Lemma append_nonempty_l (a b : string) : a <> "" -> a ++ b <> "".
Proof. intros Ha. destruct a; [contradiction|discriminate]. Qed.

Lemma toString_empty (searchParams : URLSearchParams) :
  toString searchParams = "" <-> searchParams = [].
Proof.
  split; [|now intros ->].
  destruct searchParams as [|[k v] rest]; [reflexivity|].
  unfold Strapi.toString. cbn [map fst snd String.concat].
  assert (H : urlencoded k ++ "=" ++ urlencoded v <> "").
  { apply append_nonempty_r. discriminate. }
  destruct (map _ rest); intros E; [contradiction|].
  now apply append_nonempty_l in E.
Qed.

(** X8.  [buildQuery] serialises exactly the entries whose value is not
    [undefined], [null] or the empty string, in the order of the
    record, each with its value turned into a string; a number is
    always kept, zero included. *)
Theorem buildQuery_keeps_nonempty_entries (params : Strapi.QueryParams) :
  buildQuery params
  = toString
      (map (fun entry => (fst entry, Strapi.String_ String_number (snd entry)))
         (filter
            (fun entry =>
               match snd entry with
               | Strapi.QUndefined | Strapi.QNull => false
               | Strapi.QString s => negb (String.eqb s "")
               | Strapi.QNumber _ => true
               end)
            params)).
Proof.
  unfold Strapi.buildQuery. cbv zeta.
  rewrite fold_left_append. cbn [app]. fold (Strapi.toString urlencoded). f_equal. f_equal.
  apply filter_ext. intros [k [| |s|n]]; reflexivity.
Qed.

Lemma buildQuery_empty (params : Strapi.QueryParams) :
  buildQuery params = ""
  <-> Forall (fun entry => Strapi.dropped (snd entry) = true) params.
Proof.
  unfold Strapi.buildQuery. cbv zeta.
  rewrite fold_left_append. cbn [app]. fold (Strapi.toString urlencoded). rewrite toString_empty.
  induction params as [|[k v] params IH]; simpl.
  - split; [constructor|reflexivity].
  - destruct (Strapi.dropped v) eqn:E; simpl.
    + rewrite IH. split; [now constructor|now inversion 1].
    + split; [discriminate|]. inversion 1. simpl in *. congruence.
Qed.

(** X9.  When the URL constructor rejects [path] against the CMS
    origin, [fetchStrapi] throws its [TypeError] whatever the network
    would answer.  When it accepts, there is a request that
    [fetchStrapi] sends: the failure of that request, whatever it is,
    is the failure of [fetchStrapi], and the result depends on the
    network through the answer to that request only.  The request goes
    to [path] resolved against the CMS origin;
    the URL's query is replaced by the built one when some entry of
    [params] is kept, and left as [path] has it when there are no
    [params] or every entry is passed over; the response is never
    taken from a cache; and the [Authorization] header is sent exactly
    when the token is set and not empty. *)
Theorem fetchStrapi_request (path : string)
    (options_params : option Strapi.QueryParams) :
  (URL_canParse path (STRAPI_API_URL env_STRAPI_API_URL) = false ->
   forall fetch,
     fetchStrapi fetch path options_params = Throw "TypeError: Invalid URL")
  /\ (URL_canParse path (STRAPI_API_URL env_STRAPI_API_URL) = true ->
      exists url init,
        Strapi.input url = path
        /\ Strapi.base url = STRAPI_API_URL env_STRAPI_API_URL
        /\ (Strapi.search url = None
            <-> options_params = None
                \/ exists params, options_params = Some params
                     /\ Forall (fun entry => Strapi.dropped (snd entry) = true)
                          params)
        /\ (forall query, Strapi.search url = Some query ->
            exists params,
              options_params = Some params /\ query = buildQuery params)
        /\ Strapi.cache init = "no-store"
        /\ Strapi.headers init
           = match env_STRAPI_API_TOKEN with
             | Some token =>
                 if String.eqb token "" then []
                 else [("Authorization", "Bearer " ++ token)]
             | None => []
             end
        /\ (forall fetch error,
              fetch url init = Throw error ->
              fetchStrapi fetch path options_params = Throw error)
        /\ forall fetch fetch',
             fetch url init = fetch' url init ->
             fetchStrapi fetch path options_params
             = fetchStrapi fetch' path options_params).
Proof.
  unfold Strapi.fetchStrapi, Strapi.STRAPI_API_URL. cbv zeta. split.
  - now intros ->.
  - intros ->. cbn [negb].
    eexists. eexists.
    split; [|split; [|split; [|split; [|split; [|split; [|split]]]]]].
    7: { intros fetch error E. rewrite E. reflexivity. }
    7: { intros fetch fetch' E. rewrite E. reflexivity. }
    + destruct (negb _); reflexivity.
    + destruct (negb _); reflexivity.
    + destruct options_params as [params|]; cbn [String.eqb negb Strapi.search].
      * fold (Strapi.buildQuery String_number urlencoded params).
        destruct (String.eqb (buildQuery params) "") eqn:E;
          cbn [negb Strapi.search].
        -- apply String.eqb_eq, buildQuery_empty in E.
           split; [|reflexivity]. intros _. right. now exists params.
        -- split; [discriminate|].
           intros [H | [params' [[= <-] H]]]; [discriminate|].
           apply buildQuery_empty in H. apply String.eqb_neq in E. contradiction.
      * split; [now left|reflexivity].
    + intros query. destruct options_params as [params|];
        cbn [String.eqb negb Strapi.search]; [|discriminate].
      fold (Strapi.buildQuery String_number urlencoded params).
      destruct (String.eqb (buildQuery params) ""); cbn [negb Strapi.search];
        [discriminate|].
      intros [= <-]. now exists params.
    + reflexivity.
    + cbn [Strapi.headers]. unfold Strapi.STRAPI_API_TOKEN.
      destruct env_STRAPI_API_TOKEN as [token|]; [|reflexivity].
      cbn [given]. destruct (String.eqb token ""); reflexivity.
Qed.

(** X10.  What [fetchStrapi] makes of the answer, when the URL
    constructor accepts [path] against the CMS origin: a response that
    is [ok] gives its parsed body, or the failure of parsing it; one
    that is not gives an error whose message carries the status and
    the body text, and the JSON is not read; a request that fails gives
    its own error. *)
Theorem fetchStrapi_outcome (path : string)
    (options_params : option Strapi.QueryParams) (res : Strapi.Response) :
  URL_canParse path (STRAPI_API_URL env_STRAPI_API_URL) = true ->
  let answered := fetchStrapi (fun _ _ => Normal res) path options_params in
  (Strapi.ok res = true -> answered = Strapi.json res)
  /\ (Strapi.ok res = false ->
      forall body, Strapi.text res = Normal body ->
      answered
      = Throw ("Error: Strapi request failed (" ++ Strapi.decimal (Strapi.status res)
               ++ "): " ++ body))
  /\ (Strapi.ok res = false ->
      forall error, Strapi.text res = Throw error -> answered = Throw error)
  /\ (forall error,
        fetchStrapi (fun _ _ => Throw error) path options_params = Throw error).
Proof.
  unfold Strapi.fetchStrapi, Strapi.STRAPI_API_URL. cbv zeta.
  intros ->. cbn [negb]. repeat split.
  - now intros ->.
  - now intros -> body ->.
  - now intros -> error ->.
Qed.

End StrapiClient.

Lemma fetchStrapi_outcome_witness :
  let res := {| Strapi.ok := false; Strapi.status := 404;
                Strapi.text := Normal "Not Found";
                Strapi.json := Throw "SyntaxError: Unexpected token N" |} in
  Strapi.ok res = false
  /\ Strapi.text res = Normal "Not Found"
  /\ parser_of_instances "/api/about" (STRAPI_API_URL None) = true
  /\ Strapi.fetchStrapi None None (fun _ => "0") (fun s => s) parser_of_instances
       (fun _ _ => Normal res) "/api/about" None
     = Throw "Error: Strapi request failed (404): Not Found".
Proof.
  intros res. split; [reflexivity|]. split; [reflexivity|]. split; [reflexivity|].
  exact (proj1 (proj2 (fetchStrapi_outcome None None (fun _ => "0") (fun s => s)
                         parser_of_instances "/api/about" None res eq_refl))
           eq_refl "Not Found" eq_refl).
Defined.

(** ** From the draft flag to the CMS query *)

(** X11.  The query an article or category page sends to the CMS, and
    the one the about page sends, which has no slug filter: the slug
    filter and [status] and [locale] are sent when they are not
    empty, [populate=*] always; [status] is the page's explicit
    [status] parameter, else [draft] or [published] by the draft flag;
    so a page opened with an empty [status] parameter sends no status
    at all, in draft mode too, and [locale] is sent only when the page
    got it as a single non-empty parameter. *)
Theorem by_slug_query (String_number : Z -> string) (urlencoded : string -> string)
    (slug : string) (searchParams_status searchParams_locale : option param)
    (draft : DraftState) :
  let pair name value := if String.eqb value "" then [] else [(name, value)] in
  Strapi.buildQuery String_number urlencoded
    (Pages.by_slug_params slug (page_status searchParams_status draft)
       (Pages.page_locale searchParams_locale))
  = Strapi.toString urlencoded
      (pair "filters[slug][$eq]" slug
       ++ [("populate", "*")]
       ++ pair "status"
            match searchParams_status with
            | Some (One s) => s
            | _ => if isEnabled draft then "draft" else "published"
            end
       ++ match searchParams_locale with
          | Some (One l) => pair "locale" l
          | _ => []
          end)%list
  /\ Strapi.buildQuery String_number urlencoded
       (Pages.about_params (page_status searchParams_status draft)
          (Pages.page_locale searchParams_locale))
     = Strapi.toString urlencoded
         ([("populate", "*")]
          ++ pair "status"
               match searchParams_status with
               | Some (One s) => s
               | _ => if isEnabled draft then "draft" else "published"
               end
          ++ match searchParams_locale with
             | Some (One l) => pair "locale" l
             | _ => []
             end)%list.
Proof.
  intros pair. unfold Strapi.buildQuery. cbv zeta. rewrite !fold_left_append.
  unfold Pages.by_slug_params, Pages.about_params, Pages.page_locale,
    page_status, pair.
  destruct searchParams_status as [[s|ss]|];
    destruct searchParams_locale as [[l|ls]|];
    cbn [filter map fst snd Strapi.String_ Strapi.dropped];
    destruct (String.eqb slug "");
    try destruct (String.eqb s "");
    try destruct (String.eqb l "");
    destruct (isEnabled draft); split; reflexivity.
Qed.

(** X12.  A preview session reaches the CMS: after an enable request
    that is accepted and redirected, a page opened without [status] and
    [locale] asks the CMS for [status=draft]; after a disable request
    that is redirected, it asks for [status=published]. *)
Theorem preview_session_reaches_cms (String_number : Z -> string)
    (urlencoded : string -> string) (canParse : URL_parser)
    (env : option string) (request : NextRequest) (draft : DraftState)
    (u slug : string) :
  env = None \/ env = Some "" \/ get "secret" (searchParams request) = env ->
  get "url" (searchParams request) = Some u ->
  startsWith u "/" = true ->
  canParse u (url request) = true ->
  slug <> "" ->
  Strapi.buildQuery String_number urlencoded
    (Pages.by_slug_params slug
       (page_status None (fst (Enable.GET canParse env request draft)))
       (Pages.page_locale None))
  = Strapi.toString urlencoded
      [("filters[slug][$eq]", slug); ("populate", "*"); ("status", "draft")]
  /\ Strapi.buildQuery String_number urlencoded
       (Pages.by_slug_params slug
          (page_status None (fst (Disable.GET canParse env request draft)))
          (Pages.page_locale None))
     = Strapi.toString urlencoded
         [("filters[slug][$eq]", slug); ("populate", "*"); ("status", "published")].
Proof.
  intros Hok Hu Hslash Hparse Hslug.
  rewrite (enable_authorized canParse env request draft
             (secret_accepted env request Hok)), Hu, Hslash, Hparse.
  pose proof (startsWith_slash_nonempty u Hslash) as Hne.
  apply String.eqb_neq in Hne. rewrite Hne. cbn [negb andb fst].
  unfold Disable.GET, new_URL. cbv zeta. rewrite Hu. cbn [given].
  rewrite Hne. cbn [negb]. rewrite Hparse. cbn [fst].
  unfold Strapi.buildQuery. cbv zeta. rewrite !fold_left_append.
  unfold Pages.by_slug_params, Pages.page_locale, page_status.
  cbn [filter map fst snd Strapi.String_ Strapi.dropped isEnabled app].
  apply String.eqb_neq in Hslug. rewrite Hslug. split; reflexivity.
Qed.

Lemma preview_session_reaches_cms_witness :
  get "secret" (searchParams request_blog_foo) = Some "s3cret"
  /\ get "url" (searchParams request_blog_foo) = Some "/blog/foo"
  /\ startsWith "/blog/foo" "/" = true
  /\ parser_of_instances "/blog/foo" (url request_blog_foo) = true
  /\ "foo" <> ""
  /\ Strapi.buildQuery (fun _ => "0") (fun s => s)
       (Pages.by_slug_params "foo"
          (page_status None
             (fst (Enable.GET parser_of_instances (Some "s3cret")
                     request_blog_foo DISABLED)))
          (Pages.page_locale None))
     = Strapi.toString (fun s => s)
         [("filters[slug][$eq]", "foo"); ("populate", "*"); ("status", "draft")].
Proof.
  split; [reflexivity|]. split; [reflexivity|]. split; [reflexivity|].
  split; [reflexivity|]. split; [discriminate|].
  refine (proj1 (preview_session_reaches_cms (fun _ => "0") (fun s => s)
                   parser_of_instances (Some "s3cret") request_blog_foo DISABLED
                   "/blog/foo" "foo"
                   (or_intror (or_intror eq_refl)) eq_refl eq_refl eq_refl _)).
  discriminate.
Defined.

(* ================================================================== *)
(** * Properties of the markdown overrides *)
(* ================================================================== *)

Lemma rooted_not_absolute (s : string) :
  startsWith s "/" = true ->
  String.prefix "http://" s || String.prefix "https://" s = false.
Proof.
  unfold startsWith. destruct s as [|c s]; [discriminate|].
  cbn [String.prefix].
  destruct (Ascii.ascii_dec "/"%char c) as [<-|]; [|discriminate].
  intros _. reflexivity.
Qed.

(** X13.  The [src] an image of the markdown gets is always a string:
    empty when the markdown gives none, the given one when it does not
    begin with [/], and the given one after [baseUrl] when it does,
    with nothing put before it when [baseUrl] is missing or empty.  A
    [src] beginning with [/] is never taken for an absolute URL, so one
    of the form [//host/path] is prefixed like any other. *)
Theorem RichText_img_src (baseUrl src alt : option string) :
  RichText.src (RichText.img baseUrl src alt)
  = match src with
    | None => ""
    | Some s =>
        if startsWith s "/"
        then match baseUrl with
             | Some b => b ++ s
             | None => s
             end
        else s
    end.
Proof.
  unfold RichText.img. destruct src as [s|]; [|reflexivity].
  destruct (startsWith s "/") eqn:Er; [|reflexivity].
  unfold RichText.withBaseUrl.
  pose proof (startsWith_slash_nonempty s Er) as Hne.
  apply String.eqb_neq in Hne. cbn [given]. rewrite Hne. cbn [negb].
  rewrite (rooted_not_absolute s Er).
  destruct baseUrl as [b|]; [|reflexivity].
  cbn [given]. destruct (String.eqb b "") eqn:Eb; cbn [negb RichText.src];
    [|reflexivity].
  apply String.eqb_eq in Eb. now subst b.
Qed.

Example RichText_img_protocol_relative :
  RichText.src (RichText.img (Some "http://localhost:1337")
                  (Some "//cdn.example/x.png") None)
  = "http://localhost:1337//cdn.example/x.png".
Proof. reflexivity. Qed.

(** X14.  A link of the markdown keeps its [href]; it opens in a new
    tab exactly when it carries [rel="noreferrer"], and that is exactly
    when the [href] is not empty and begins with neither [/] nor [#]. *)
Theorem RichText_a_external (href : option string) :
  let link := RichText.a href in
  RichText.href link = href
  /\ (RichText.target link = Some "_blank"
      <-> RichText.rel link = Some "noreferrer")
  /\ (RichText.target link = Some "_blank"
      <-> exists h, href = Some h /\ h <> ""
                    /\ startsWith h "/" = false /\ startsWith h "#" = false)
  /\ (RichText.target link = None \/ RichText.target link = Some "_blank").
Proof.
  unfold RichText.a. cbv zeta. cbn [RichText.href RichText.target RichText.rel].
  split; [reflexivity|].
  destruct href as [h|]; cbn [given].
  - destruct (String.eqb h "") eqn:Eh; cbn [negb].
    + apply String.eqb_eq in Eh. repeat split; try discriminate; auto.
      intros [h' [[= <-] [Hne _]]]. contradiction.
    + apply String.eqb_neq in Eh.
      destruct (startsWith h "/") eqn:E1; destruct (startsWith h "#") eqn:E2;
        cbn [negb andb]; repeat split; try discriminate; auto;
        try (intros [h' [[= <-] [_ [H1 H2]]]]; congruence).
      intros _. exists h. repeat split; assumption.
  - repeat split; try discriminate; auto.
    intros [h [H _]]. discriminate.
Qed.

Lemma STRAPI_API_URL_nonempty (env : option string) : STRAPI_API_URL env <> "".
Proof.
  unfold STRAPI_API_URL. destruct env as [o|]; [|discriminate].
  destruct (String.eqb o "") eqn:E; [discriminate|]. now apply String.eqb_neq.
Qed.

(** X15.  The CMS origin is never empty, and with it as [baseUrl], the
    way both pages call the component, the renderer's own [withBaseUrl]
    gives on every string what the pages' [withBaseUrl] gives. *)
Theorem RichText_withBaseUrl_agrees (env : option string) (s : string) :
  STRAPI_API_URL env <> ""
  /\ withBaseUrl env (VStr s)
     = Normal match RichText.withBaseUrl (Some (STRAPI_API_URL env)) (Some s) with
              | Some r => VStr r
              | None => VNull
              end.
Proof.
  split; [apply STRAPI_API_URL_nonempty|].
  unfold withBaseUrl, RichText.withBaseUrl. cbn [truthy given].
  destruct (String.eqb s ""); cbn [negb]; [reflexivity|].
  destruct (_ || _); [reflexivity|].
  pose proof (STRAPI_API_URL_nonempty env) as H.
  apply String.eqb_neq in H. now rewrite H.
Qed.

(* ================================================================== *)
(** * Properties of what the pages compute *)
(* ================================================================== *)

Lemma extractMediaItems_data_wrapper (p : page) (x : val) :
  truthy x = true ->
  extractMediaItems p (VObj [("data", x)]) = extractMediaItems p x.
Proof.
  intros H. rewrite extractMediaItems_object.
  change (prop (VObj [("data", x)]) "attributes") with VUndefined.
  change (prop (VObj [("data", x)]) "data") with x.
  cbn [truthy]. now rewrite H.
Qed.

Lemma extractMediaItems_attributes_wrapper (p : page) (x : val) :
  truthy x = true ->
  extractMediaItems p (VObj [("attributes", x)]) = [x].
Proof.
  intros H. rewrite extractMediaItems_object.
  change (prop (VObj [("attributes", x)]) "attributes") with x.
  now rewrite H.
Qed.

(** X16.  The cover URL of an article does not depend on how the CMS
    wraps the cover: for an asset that has a [url] or a [formats] key
    and no truthy [attributes] or [data] of its own, the bare asset,
    the asset under [data], under [attributes], under [data] then
    [attributes], and a one-item sequence of it all give the URL that
    [getMediaUrl] gives for the asset. *)
Theorem coverUrl_wrapper_independent (env : option string) (asset : val)
    (fields : list (string * val)) (others : list (string * val)) :
  asset = VObj fields ->
  truthy (prop asset "attributes") = false ->
  truthy (prop asset "data") = false ->
  has_in "url" asset = true \/ has_in "formats" asset = true ->
  forall cover,
    cover = asset
    \/ cover = VObj [("data", asset)]
    \/ cover = VObj [("attributes", asset)]
    \/ cover = VObj [("data", VObj [("attributes", asset)])]
    \/ cover = VArr [asset] ->
    Pages.BlogArticlePage.coverUrl env (VObj (("cover", cover) :: others))
    = getMediaUrl env asset.
Proof.
  intros -> Ha Hd Hu cover Hc.
  unfold Pages.BlogArticlePage.coverUrl, Pages.BlogArticlePage.coverAsset.
  assert (Hflat : extractMediaItems BlogPage (VObj fields) = [VObj fields]).
  { rewrite extractMediaItems_object, Ha, Hd.
    destruct Hu as [-> | ->]; [reflexivity|]. now rewrite orb_true_r. }
  assert (E : extractMediaItems BlogPage cover = [VObj fields]).
  { destruct Hc as [-> | [-> | [-> | [-> | ->]]]].
    - exact Hflat.
    - now rewrite extractMediaItems_data_wrapper.
    - now rewrite extractMediaItems_attributes_wrapper.
    - rewrite extractMediaItems_data_wrapper by reflexivity.
      now rewrite extractMediaItems_attributes_wrapper.
    - rewrite extractMediaItems_array_concat. cbn [map concat].
      rewrite Hflat. reflexivity. }
  assert (Hcov : Pages.coalesce (prop (VObj (("cover", cover) :: others)) "cover") VNull
                 = cover).
  { cbn. destruct Hc as [-> | [-> | [-> | [-> | ->]]]]; reflexivity. }
  rewrite Hcov, E. reflexivity.
Qed.

Lemma coverUrl_wrapper_independent_witness :
  asset_large_medium_root
  = VObj [("formats", VObj [("large", VObj [("url", VStr "/a.png")]);
                            ("medium", VObj [("url", VStr "/b.png")])]);
          ("url", VStr "/c.png")]
  /\ truthy (prop asset_large_medium_root "attributes") = false
  /\ truthy (prop asset_large_medium_root "data") = false
  /\ has_in "url" asset_large_medium_root = true
  /\ Pages.BlogArticlePage.coverUrl None
       (VObj [("cover", VObj [("data", VObj [("attributes", asset_large_medium_root)])]);
              ("title", VStr "Harvest")])
     = getMediaUrl None asset_large_medium_root.
Proof.
  split; [reflexivity|]. split; [reflexivity|]. split; [reflexivity|].
  split; [reflexivity|].
  apply (coverUrl_wrapper_independent None asset_large_medium_root _
           [("title", VStr "Harvest")] eq_refl eq_refl eq_refl
           (or_introl eq_refl)).
  right. right. right. left. reflexivity.
Defined.

(** X17.  The category page reads [attributes.name] without unwrapping:
    an entry without an [attributes] key, which the article page takes
    as it is, makes the category page throw; an entry whose
    [attributes] is an object gives its [name], or the default title,
    and is unwrapped by the article page. *)
Theorem category_entry_formats (fields : list (string * val)) :
  (lookup "attributes" fields = None ->
   Pages.CategoryPage.title (VObj fields)
   = Throw "TypeError: Cannot read properties of undefined (reading 'name')"
   /\ Pages.BlogArticlePage.articleData (VObj fields) = VObj fields)
  /\ (forall afields,
        lookup "attributes" fields = Some (VObj afields) ->
        Pages.CategoryPage.title (VObj fields)
        = Normal (or_else (prop (VObj afields) "name") (VStr "Untitled category"))
        /\ Pages.BlogArticlePage.articleData (VObj fields) = VObj afields).
Proof.
  unfold Pages.CategoryPage.title, Pages.BlogArticlePage.articleData,
    getEntityAttributes.
  split.
  - intros E. cbn. now rewrite E.
  - intros afields E. cbn. now rewrite E.
Qed.

Lemma category_entry_formats_witness :
  lookup "attributes" [("id", VNum 3); ("name", VStr "Crops")] = None
  /\ Pages.CategoryPage.title (VObj [("id", VNum 3); ("name", VStr "Crops")])
     = Throw "TypeError: Cannot read properties of undefined (reading 'name')".
Proof.
  split; [reflexivity|].
  exact (proj1 (proj1 (category_entry_formats [("id", VNum 3); ("name", VStr "Crops")])
                  eq_refl)).
Defined.

(* ================================================================== *)
(** * Further properties of the preview session controller *)
(* ================================================================== *)

(** X18.  The enable handler has four outcomes only: the 401 answer,
    the 400 answer and the [TypeError] of a target that the URL
    constructor rejects, all three with the draft flag left as it was,
    and a redirect with the flag switched on.  The target of a redirect
    is the request's own [url] parameter, it begins with [/] and the
    URL constructor accepted it; an exception is thrown only for a
    target that passed both tests and was rejected. *)
Theorem enable_outcomes (canParse : URL_parser) (env : option string)
    (request : NextRequest) (draft : DraftState) :
  Enable.GET canParse env request draft
  = (draft, json "Invalid preview secret" 401)
  \/ Enable.GET canParse env request draft
     = (draft, json "Missing or invalid url" 400)
  \/ (Enable.GET canParse env request draft
      = (draft, uncaught "TypeError: Invalid URL")
      /\ exists u, get "url" (searchParams request) = Some u
                   /\ startsWith u "/" = true
                   /\ canParse u (url request) = false)
  \/ exists target,
       Enable.GET canParse env request draft = (ENABLED, redirect target)
       /\ get "url" (searchParams request) = Some (input target)
       /\ startsWith (input target) "/" = true
       /\ canParse (input target) (url request) = true
       /\ base target = url request.
Proof.
  destruct (given env && negb (same (get "secret" (searchParams request)) env))
    eqn:E.
  - left. now apply enable_unauthorized.
  - right. rewrite (enable_authorized canParse env request draft E).
    destruct (get "url" (searchParams request)) as [u|]; [|now left].
    destruct (negb (String.eqb u "") && startsWith u "/") eqn:Eu; [|now left].
    right. apply andb_true_iff in Eu. destruct Eu as [_ Hs].
    destruct (canParse u (url request)) eqn:Ep.
    + right. eexists. split; [reflexivity|].
      destruct (get "status" (searchParams request)) as [s|];
        destruct (get "locale" (searchParams request)) as [l|];
        try destruct (String.eqb s ""); try destruct (String.eqb l "");
        cbn [input base searchParams_set]; repeat split; assumption.
    + left. split; [reflexivity|]. now exists u.
Qed.

(** The test of the target accepts one that begins with two slashes. *)
Example enable_accepts_double_slash :
  exists target,
    Enable.GET parser_of_instances None
      {| url := "http://localhost:3000/api/preview/enable?url=%2F%2Fevil.example%2Fx";
         searchParams := [("url", "//evil.example/x")] |} DISABLED
    = (ENABLED, redirect target)
    /\ input target = "//evil.example/x".
Proof. eexists. split; reflexivity. Qed.

(** X19.  Transitions of the draft flag: an enable request that is
    refused or throws never ends a preview that is on; after an enable
    request the flag is on exactly when it was on before or the request
    was redirected; a disable request never starts a preview: after it
    the flag is on exactly when it was on before and the handler threw;
    and after a redirected disable request pages without a [status]
    parameter ask for published content. *)
Theorem draft_flag_transitions (canParse : URL_parser) (env : option string)
    (request : NextRequest) (draft : DraftState) :
  (isEnabled draft = true ->
   isEnabled (fst (Enable.GET canParse env request draft)) = true)
  /\ (isEnabled (fst (Enable.GET canParse env request draft)) = true
      <-> isEnabled draft = true
          \/ exists target,
               snd (Enable.GET canParse env request draft) = redirect target)
  /\ (isEnabled (fst (Disable.GET canParse env request draft)) = true
      <-> isEnabled draft = true
          /\ exists error,
               snd (Disable.GET canParse env request draft) = uncaught error)
  /\ ((exists target,
         snd (Disable.GET canParse env request draft) = redirect target) ->
      page_status None (fst (Disable.GET canParse env request draft))
      = "published").
Proof.
  assert (Hkept : forall response,
            (forall target, response <> redirect target) ->
            Enable.GET canParse env request draft = (draft, response) ->
            (isEnabled draft = true ->
             isEnabled (fst (Enable.GET canParse env request draft)) = true)
            /\ (isEnabled (fst (Enable.GET canParse env request draft)) = true
                <-> isEnabled draft = true
                    \/ exists target,
                         snd (Enable.GET canParse env request draft)
                         = redirect target)).
  { intros response Hr E. rewrite E. cbn [fst snd]. split; [auto|].
    split; [auto|]. intros [H | [t H]]; [assumption|]. now apply Hr in H. }
  assert (Henable :
            (isEnabled draft = true ->
             isEnabled (fst (Enable.GET canParse env request draft)) = true)
            /\ (isEnabled (fst (Enable.GET canParse env request draft)) = true
                <-> isEnabled draft = true
                    \/ exists target,
                         snd (Enable.GET canParse env request draft)
                         = redirect target)).
  { destruct (given env && negb (same (get "secret" (searchParams request)) env))
      eqn:E.
    - eapply Hkept; [|now apply enable_unauthorized]. discriminate.
    - pose proof (enable_authorized canParse env request draft E) as Ha.
      destruct (get "url" (searchParams request)) as [u|];
        [|eapply Hkept; [|exact Ha]; discriminate].
      destruct (negb (String.eqb u "") && startsWith u "/");
        [|eapply Hkept; [|exact Ha]; discriminate].
      destruct (canParse u (url request));
        [|eapply Hkept; [|exact Ha]; discriminate].
      rewrite Ha. cbn [fst snd isEnabled]. split; [reflexivity|].
      split; [|reflexivity]. intros _. right. eexists. reflexivity. }
  destruct Henable as [H1 H2]. split; [exact H1|]. split; [exact H2|].
  unfold Disable.GET, new_URL. cbv zeta.
  destruct (canParse _ (url request)); cbn [fst snd isEnabled].
  - split.
    + split; [discriminate|]. intros [_ [error H]]. discriminate.
    + reflexivity.
  - split.
    + split; [|tauto]. intros H. split; [exact H|]. eexists. reflexivity.
    + intros [target H]. discriminate.
Qed.

(* ================================================================== *)
(** * Properties of the about page's block renderer *)
(* ================================================================== *)

Section AboutBlocks.

Variable env_STRAPI_API_URL : option string.
Variable styles : string -> string.

#[local] Abbreviation renderBlock :=
  (AboutPage.renderBlock env_STRAPI_API_URL styles).
#[local] Abbreviation sliderImage :=
  (AboutPage.sliderImage env_STRAPI_API_URL styles).

Lemma truthy_url_is_string (url : val) :
  url = VNull \/ (exists s, url = VStr s /\ s <> "") ->
  truthy url = true ->
  exists s, url = VStr s /\ s <> "".
Proof. intros [-> | H] Ht; [discriminate|exact H]. Qed.

Lemma sliderImage_shape (index : nat) (asset : val) (assetIndex : nat) :
  match sliderImage index asset assetIndex with
  | Normal image =>
      forall src, In src (AboutPage.image_sources image) ->
      exists s, src = VStr s /\ s <> ""
  | Throw error => error = "TypeError: url.startsWith is not a function"
  end.
Proof.
  unfold AboutPage.sliderImage.
  pose proof (getMediaUrl_shape env_STRAPI_API_URL asset) as H.
  destruct (getMediaUrl env_STRAPI_API_URL asset) as [url|e]; [|apply H].
  destruct (truthy url) eqn:Ht; cbn [negb]; [|intros src []].
  intros src [<- | []]. now apply truthy_url_is_string.
Qed.

Lemma slider_images_shape (index : nat) (assets : list val) (from : nat) :
  match AboutPage.map_indexed (sliderImage index) assets from with
  | Normal images =>
      forall src, In src (concat (map AboutPage.image_sources images)) ->
      exists s, src = VStr s /\ s <> ""
  | Throw error => error = "TypeError: url.startsWith is not a function"
  end.
Proof.
  revert from. induction assets as [|asset assets IH]; intros from;
    cbn [AboutPage.map_indexed]; [intros src []|].
  pose proof (sliderImage_shape index asset from) as H.
  destruct (sliderImage index asset from) as [image|e]; [|exact H].
  specialize (IH (S from)).
  destruct (AboutPage.map_indexed (sliderImage index) assets (S from))
    as [images|e]; [|exact IH].
  intros src Hin. cbn [map concat] in Hin. apply in_app_or in Hin.
  destruct Hin as [Hin | Hin]; [now apply H|now apply IH].
Qed.

(** The five ways [renderBlock] goes, by the block's [__component]. *)
Lemma renderBlock_cases (block : val) (index : nat) :
  nullish block = false ->
  forall (P : completion AboutPage.node -> Prop),
  (forall n, AboutPage.image_sources n = [] ->
             AboutPage.key_of n <> None -> P (Normal n)) ->
  (AboutPage.component_is block "shared.media" = true
   \/ AboutPage.component_is block "shared.slider" = true ->
   (forall n, (forall src, In src (AboutPage.image_sources n) ->
                           exists s, src = VStr s /\ s <> "") ->
              AboutPage.key_of n <> None -> P (Normal n))
   /\ P (Throw "TypeError: url.startsWith is not a function")) ->
  P (renderBlock block index).
Proof.
  intros Hn P Hplain Hmedia. unfold AboutPage.renderBlock. cbv zeta.
  rewrite Hn.
  destruct (AboutPage.component_is block "shared.rich-text").
  { apply Hplain; [|discriminate]. cbn.
    unfold AboutPage.renderRichText. destruct (negb _); reflexivity. }
  destruct (AboutPage.component_is block "shared.quote").
  { apply Hplain; [|discriminate]. cbn.
    destruct (truthy (prop block "title")); reflexivity. }
  destruct (AboutPage.component_is block "shared.media") eqn:Em.
  { destruct (Hmedia (or_introl eq_refl)) as [Hok Hthrow].
    pose proof (getMediaUrl_shape env_STRAPI_API_URL
                  (Pages.first
                     (extractMediaItems AboutPage
                        (Pages.coalesce (prop block "file") VNull)))) as H.
    destruct (getMediaUrl env_STRAPI_API_URL _) as [url|e].
    - apply Hok; [|discriminate]. intros src. cbn.
      destruct (truthy url) eqn:Ht; cbn;
        destruct (truthy (optprop _ "caption")); cbn;
        try (intros []; fail);
        intros [<- | []]; now apply truthy_url_is_string.
    - destruct H as [-> _]. exact Hthrow. }
  destruct (AboutPage.component_is block "shared.slider") eqn:Es.
  { destruct (Hmedia (or_intror eq_refl)) as [Hok Hthrow].
    destruct (extractMediaItems AboutPage
                (Pages.coalesce (prop block "files") VNull)) as [|a assets].
    - apply Hok; [|discriminate]. intros src [].
    - pose proof (slider_images_shape index (a :: assets) 0) as H.
      destruct (AboutPage.map_indexed (sliderImage index) (a :: assets) 0)
        as [images|e].
      + apply Hok; [|discriminate]. intros src Hin. apply H.
        cbn in Hin. now rewrite !app_nil_r in Hin.
      + rewrite H. exact Hthrow. }
  apply Hplain; [reflexivity|discriminate].
Qed.

(** X20.  [renderBlock] throws on a block that is [null] or
    [undefined]; on any other block it throws only for a media or
    slider block, and then only the [TypeError] that [getMediaUrl]
    throws: a rich-text block, a quote and a block of an
    unrecognised type always render. *)
Theorem renderBlock_throws (block : val) (index : nat) :
  (nullish block = true -> exists error, renderBlock block index = Throw error)
  /\ (forall error,
        renderBlock block index = Throw error ->
        nullish block = true
        \/ (error = "TypeError: url.startsWith is not a function"
            /\ (AboutPage.component_is block "shared.media" = true
                \/ AboutPage.component_is block "shared.slider" = true))).
Proof.
  split.
  - destruct block; try discriminate; intros _; eexists; reflexivity.
  - intros error. destruct (nullish block) eqn:Hn; [now left|].
    apply (renderBlock_cases block index Hn
             (fun r => r = Throw error -> _)).
    + discriminate.
    + intros Hm. split; [discriminate|].
      intros [= <-]. right. now split.
Qed.

(** X21.  Every image that [renderBlock] puts on the page has a
    non-empty string as its [src]: an asset without a usable URL gives
    the placeholder, or is left out of a gallery, and never an [img]
    without a source. *)
Theorem renderBlock_image_sources (block : val) (index : nat)
    (n : AboutPage.node) (src : val) :
  renderBlock block index = Normal n ->
  In src (AboutPage.image_sources n) ->
  exists s, src = VStr s /\ s <> "".
Proof.
  destruct (nullish block) eqn:Hn.
  { destruct block; discriminate. }
  revert n src.
  apply (renderBlock_cases block index Hn
           (fun r => forall n src, r = Normal n ->
                       In src (AboutPage.image_sources n) -> _)).
  - intros n0 H0 _ n src [= <-]. rewrite H0. intros [].
  - intros _. split; [|discriminate].
    intros n0 H0 _ n src [= <-]. apply H0.
Qed.

Lemma decimal_inj (n m : nat) : Strapi.decimal n = Strapi.decimal m -> n = m.
Proof.
  unfold Strapi.decimal. intros E.
  apply DecimalNat.Unsigned.to_uint_inj.
  apply (f_equal DecimalString.NilEmpty.uint_of_string) in E.
  rewrite !DecimalString.NilEmpty.usu in E. now injection E.
Qed.

Lemma block_keys_differ (kind kind' : string) (i j : nat) :
  In kind ["rich"; "quote"; "media"; "slider"; "block"] ->
  In kind' ["rich"; "quote"; "media"; "slider"; "block"] ->
  kind ++ "-" ++ Strapi.decimal i = kind' ++ "-" ++ Strapi.decimal j ->
  i = j.
Proof.
  intros Hk Hk' E. cbn [In] in Hk, Hk'.
  repeat (destruct Hk as [<- | Hk]; [|]); try contradiction;
    repeat (destruct Hk' as [<- | Hk']; [|]); try contradiction;
    cbn [String.append] in E; try discriminate E;
    apply decimal_inj; congruence.
Qed.

Lemma renderBlock_key (block : val) (index : nat) (n : AboutPage.node) :
  renderBlock block index = Normal n ->
  exists kind,
    In kind ["rich"; "quote"; "media"; "slider"; "block"]
    /\ AboutPage.key_of n = Some (kind ++ "-" ++ Strapi.decimal index).
Proof.
  unfold AboutPage.renderBlock. cbv zeta.
  destruct (nullish block); [destruct block; discriminate|].
  destruct (AboutPage.component_is block "shared.rich-text").
  { intros [= <-]. exists "rich". split; [cbn; tauto|reflexivity]. }
  destruct (AboutPage.component_is block "shared.quote").
  { intros [= <-]. exists "quote". split; [cbn; tauto|reflexivity]. }
  destruct (AboutPage.component_is block "shared.media").
  { destruct (getMediaUrl env_STRAPI_API_URL _); [|discriminate].
    intros [= <-]. exists "media". split; [cbn; tauto|reflexivity]. }
  destruct (AboutPage.component_is block "shared.slider").
  { destruct (extractMediaItems AboutPage _).
    - intros [= <-]. exists "slider". split; [cbn; tauto|reflexivity].
    - destruct (AboutPage.map_indexed _ _ _); [|discriminate].
      intros [= <-]. exists "slider". split; [cbn; tauto|reflexivity]. }
  intros [= <-]. exists "block". split; [cbn; tauto|reflexivity].
Qed.

Lemma renderBlocks_keys_from (blocks : list val) (from : nat)
    (nodes : list AboutPage.node) :
  AboutPage.map_indexed renderBlock blocks from = Normal nodes ->
  length nodes = length blocks
  /\ Forall (fun n => exists kind i,
                        from <= i
                        /\ In kind ["rich"; "quote"; "media"; "slider"; "block"]
                        /\ AboutPage.key_of n
                           = Some (kind ++ "-" ++ Strapi.decimal i)) nodes
  /\ NoDup (map AboutPage.key_of nodes).
Proof.
  revert from nodes. induction blocks as [|block blocks IH]; intros from nodes;
    cbn [AboutPage.map_indexed].
  - intros [= <-]. repeat split; constructor.
  - destruct (renderBlock block from) as [n|e] eqn:En; [|discriminate].
    destruct (AboutPage.map_indexed renderBlock blocks (S from)) as [ns|e] eqn:Ens;
      [|discriminate].
    intros [= <-]. destruct (IH (S from) ns Ens) as [Hlen [Hall Hnd]].
    destruct (renderBlock_key block from n En) as [kind [Hk Hkey]].
    split; [cbn; now rewrite Hlen|]. split.
    + constructor; [now exists kind, from|].
      eapply Forall_impl; [|exact Hall].
      intros x [kind' [i [Hi H]]]. exists kind', i. split; [lia|exact H].
    + cbn [map]. constructor; [|exact Hnd].
      intros Hin. apply in_map_iff in Hin. destruct Hin as [x [Hx Hin]].
      rewrite Forall_forall in Hall.
      destruct (Hall x Hin) as [kind' [i [Hi [Hk' Hkey']]]].
      rewrite Hkey, Hkey' in Hx. injection Hx as Hx.
      apply block_keys_differ in Hx; [lia|assumption|assumption].
Qed.

(** X22.  When the blocks of the about entry render, there is one
    element per block, every element has a [key], and no two elements
    have the same [key]. *)
Theorem renderBlocks_keys_distinct (blocks : list val)
    (nodes : list AboutPage.node) :
  AboutPage.renderBlocks env_STRAPI_API_URL styles blocks = Normal nodes ->
  length nodes = length blocks
  /\ Forall (fun n => AboutPage.key_of n <> None) nodes
  /\ NoDup (map AboutPage.key_of nodes).
Proof.
  unfold AboutPage.renderBlocks. intros E.
  destruct (renderBlocks_keys_from blocks 0 nodes E) as [Hlen [Hall Hnd]].
  split; [exact Hlen|]. split; [|exact Hnd].
  eapply Forall_impl; [|exact Hall].
  intros n [kind [i [_ [_ H]]]]. rewrite H. discriminate.
Qed.

(** X23.  On the about page a media block whose [file] is a bare
    string never shows an image: the page's copy of the normaliser has
    no branch for strings, so the block renders with the
    placeholder. *)
Theorem about_media_string_file (block : val) (s : string) (index : nat) :
  AboutPage.component_is block "shared.rich-text" = false ->
  AboutPage.component_is block "shared.quote" = false ->
  AboutPage.component_is block "shared.media" = true ->
  prop block "file" = VStr s ->
  exists n,
    renderBlock block index = Normal n
    /\ AboutPage.image_sources n = [].
Proof.
  intros H1 H2 H3 Hf. unfold AboutPage.renderBlock. cbv zeta.
  assert (Hn : nullish block = false).
  { destruct block; try reflexivity; discriminate H3. }
  rewrite Hn, H1, H2, H3, Hf.
  change (Pages.coalesce (VStr s) VNull) with (VStr s).
  rewrite extractMediaItems_about_string.
  eexists. split; reflexivity.
Qed.

End AboutBlocks.

Lemma renderBlock_throws_witness :
  AboutPage.renderBlock None (fun name => name) media_block_numeric_url 0
  = Throw "TypeError: url.startsWith is not a function"
  /\ (nullish media_block_numeric_url = true
      \/ ("TypeError: url.startsWith is not a function"
          = "TypeError: url.startsWith is not a function"
          /\ (AboutPage.component_is media_block_numeric_url "shared.media" = true
              \/ AboutPage.component_is media_block_numeric_url "shared.slider"
                 = true))).
Proof.
  split; [reflexivity|].
  apply (proj2 (renderBlock_throws None (fun name => name)
                  media_block_numeric_url 0)).
  reflexivity.
Defined.

Lemma renderBlock_image_sources_witness :
  exists n,
    AboutPage.renderBlock None (fun name => name) media_block 2 = Normal n
    /\ In (VStr "http://localhost:1337/uploads/field.png")
         (AboutPage.image_sources n)
    /\ exists s, VStr "http://localhost:1337/uploads/field.png" = VStr s /\ s <> "".
Proof.
  eexists. split; [reflexivity|]. split; [cbn; now left|].
  eapply (renderBlock_image_sources None (fun name => name) media_block 2);
    [reflexivity|cbn; now left].
Defined.

Lemma renderBlocks_keys_distinct_witness :
  exists nodes,
    AboutPage.renderBlocks None (fun name => name)
      [media_block; quote_block; chart_block; quote_block] = Normal nodes
    /\ map AboutPage.key_of nodes
       = [Some "media-0"; Some "quote-1"; Some "block-2"; Some "quote-3"]
    /\ NoDup (map AboutPage.key_of nodes).
Proof.
  eexists. split; [reflexivity|]. split; [reflexivity|].
  exact (proj2 (proj2 (renderBlocks_keys_distinct None (fun name => name)
                         [media_block; quote_block; chart_block; quote_block]
                         _ eq_refl))).
Defined.

Lemma about_media_string_file_witness :
  let block := VObj [("__component", VStr "shared.media");
                     ("file", VStr "/uploads/field.png")] in
  AboutPage.component_is block "shared.rich-text" = false
  /\ AboutPage.component_is block "shared.quote" = false
  /\ AboutPage.component_is block "shared.media" = true
  /\ prop block "file" = VStr "/uploads/field.png"
  /\ exists n,
       AboutPage.renderBlock None (fun name => name) block 0 = Normal n
       /\ AboutPage.image_sources n = [].
Proof.
  intros block. split; [reflexivity|]. split; [reflexivity|].
  split; [reflexivity|]. split; [reflexivity|].
  exact (about_media_string_file None (fun name => name) block
           "/uploads/field.png" 0 eq_refl eq_refl eq_refl eq_refl).
Defined.

(* ================================================================== *)
(** * Instances *)
(* ================================================================== *)


Lemma extractMediaItems_filter_removes_nothing_witness :
  In (VObj [("url", VStr "/x.png")])
     (extractMediaItems AboutPage
        (VArr [VNull; VObj [("data", VObj [("url", VStr "/x.png")])]]))
  /\ truthy (VObj [("url", VStr "/x.png")]) = true.
Proof.
  assert (H : In (VObj [("url", VStr "/x.png")])
                (extractMediaItems AboutPage
                   (VArr [VNull; VObj [("data", VObj [("url", VStr "/x.png")])]])))
    by (vm_compute; now left).
  split; [exact H|].
  exact (proj1 (extractMediaItems_filter_removes_nothing AboutPage) _ _ H).
Defined.

Lemma fetchStrapi_request_witness :
  parser_of_instances "/api/about" (STRAPI_API_URL None) = true
  /\ exists url init,
    Strapi.input url = "/api/about"
    /\ Strapi.search url = Some "populate=*&status=draft"
    /\ Strapi.headers init = [("Authorization", "Bearer t0k3n")]
    /\ Strapi.cache init = "no-store".
Proof.
  split; [reflexivity|].
  destruct (proj2 (fetchStrapi_request None (Some "t0k3n") (fun _ => "0")
                     (fun s => s) parser_of_instances "/api/about"
                     (Some (Pages.about_params "draft" Strapi.QUndefined)))
              eq_refl)
    as [url [init [H1 [_ [H2 [H3 [H4 [H5 _]]]]]]]].
  exists url, init. split; [exact H1|]. split; [|split; [exact H5|exact H4]].
  destruct (Strapi.search url) as [query|] eqn:E.
  - destruct (H3 query eq_refl) as [params [[= <-] ->]]. reflexivity.
  - exfalso. destruct (proj1 H2 eq_refl) as [H | [params [[= <-] H]]];
      [discriminate|].
    inversion H. discriminate.
Defined.

Lemma RichText_a_external_witness :
  RichText.target (RichText.a (Some "https://example.org/report")) = Some "_blank"
  /\ RichText.rel (RichText.a (Some "https://example.org/report"))
     = Some "noreferrer".
Proof.
  split; [reflexivity|].
  exact (proj1 (proj1 (proj2 (RichText_a_external
                                 (Some "https://example.org/report"))))
           eq_refl).
Defined.

Lemma draft_flag_transitions_witness :
  isEnabled ENABLED = true
  /\ isEnabled
       (fst (Enable.GET parser_of_instances (Some "s3cret")
               request_wrong_secret_foreign_url ENABLED))
     = true.
Proof.
  split; [reflexivity|].
  exact (proj1 (draft_flag_transitions parser_of_instances (Some "s3cret")
                  request_wrong_secret_foreign_url ENABLED) eq_refl).
Defined.
